(** * gotpi: one-time-pad image encryption

    A shallow embedding of the Go package [gotpi] (file [otp.go]), of the two
    earlier revisions of the same code that take the key-file path in
    [KeyGen], and of the command-line helper [save].

    Modelling conventions.
    - Go's [int] and [uint] are modelled by [Z]; coordinates are taken to
      fit a machine word, so the conversions [uint(..)] and [int(..)] of a
      non-negative size are the identity.  The fixed-width conversions
      [uint8], [uint16] and [uint32] wrap around and are written out, and so
      is the overflow test of the allocation of a raster, for the 64-bit
      [int].
    - The standard packages [image] and [image/color], [crypto/rand] and
      [github.com/nfnt/resize] are not part of the repository; the parts of
      them the code calls are transcribed from their Go sources.  A raster
      ([image.RGBA], [image.NRGBA]) is a rectangle and a table of pixels
      indexed by coordinates: the byte layout of [Pix] and [Stride] and the
      memory the machine has are not modelled; the check of the allocation
      against negative or huge dimensions is.
    - Images are heap objects reached through pointers; a call runs in a
      state made of that heap, the stream of the secure random source and
      the file system, and either returns or panics. *)


From Stdlib Require Import ZArith Lia Bool List.
From stdpp Require Import base list strings gmap.

Local Open Scope Z_scope.

(** ** Fixed-width integers *)

Definition uint8 (z : Z) : Z := z mod 2 ^ 8.
Definition uint16 (z : Z) : Z := z mod 2 ^ 16.
Definition uint32 (z : Z) : Z := z mod 2 ^ 32.

(** ** Package image/color *)

(** [type Pixel bool] with [Black Pixel = true] and [White Pixel = false]. *)
Definition Pixel := bool.
Definition Black : Pixel := true.
Definition White : Pixel := false.

(** The struct [color.RGBA]: alpha-premultiplied, 8 bits per channel. *)
Record color_RGBA := mkRGBA { R : Z; G : Z; B : Z; A : Z }.

(** The struct [color.NRGBA]: not premultiplied, 8 bits per channel. *)
Record color_NRGBA := mkNRGBA { NR : Z; NG : Z; NB : Z; NA : Z }.

(** A value of the interface [color.Color], by its dynamic type.  Any
    implementation other than the three the program builds itself is given
    by what its [RGBA] method returns. *)
Inductive Color :=
| ColorPixel (p : Pixel)
| ColorRGBA (c : color_RGBA)
| ColorNRGBA (c : color_NRGBA)
| ColorOther (r g b a : Z).

(** [func (c Pixel) RGBA() (r, g, b, a uint32)] *)
Definition Pixel_RGBA (c : Pixel) : Z * Z * Z * Z :=
  if Bool.eqb c Black then (0, 0, 0, 0xffff)
  else (0xffff, 0xffff, 0xffff, 0xffff).

(** [r = uint32(c.R); r |= r << 8] *)
Definition spread8 (v : Z) : Z :=
  let r := uint32 v in uint32 (Z.lor r (uint32 (Z.shiftl r 8))).

(** [func (c RGBA) RGBA() (r, g, b, a uint32)] of image/color. *)
Definition color_RGBA_RGBA (c : color_RGBA) : Z * Z * Z * Z :=
  (spread8 (R c), spread8 (G c), spread8 (B c), spread8 (A c)).

(** [r |= r << 8; r *= uint32(c.A); r /= 0xff] *)
Definition premul8 (v a : Z) : Z :=
  uint32 (spread8 v * uint32 a) / 0xff.

(** [func (c NRGBA) RGBA() (r, g, b, a uint32)] of image/color. *)
Definition color_NRGBA_RGBA (c : color_NRGBA) : Z * Z * Z * Z :=
  (premul8 (NR c) (NA c), premul8 (NG c) (NA c), premul8 (NB c) (NA c),
   spread8 (NA c)).

(** The method [RGBA] of the interface, dispatched on the dynamic type. *)
Definition Color_RGBA (c : Color) : Z * Z * Z * Z :=
  match c with
  | ColorPixel p => Pixel_RGBA p
  | ColorRGBA c => color_RGBA_RGBA c
  | ColorNRGBA c => color_NRGBA_RGBA c
  | ColorOther r g b a => (r, g, b, a)
  end.

(** [rgbaModel] of image/color, the conversion behind [color.RGBAModel];
    its result always has dynamic type [color.RGBA]. *)
Definition rgbaModel (c : Color) : color_RGBA :=
  match c with
  | ColorRGBA c => c
  | _ =>
      let '(r, g, b, a) := Color_RGBA c in
      mkRGBA (uint8 (Z.shiftr r 8)) (uint8 (Z.shiftr g 8))
             (uint8 (Z.shiftr b 8)) (uint8 (Z.shiftr a 8))
  end.

(** [nrgbaModel] of image/color, the conversion behind [color.NRGBAModel]. *)
Definition nrgbaModel (c : Color) : color_NRGBA :=
  match c with
  | ColorNRGBA c => c
  | _ =>
      let '(r, g, b, a) := Color_RGBA c in
      if a =? 0xffff then
        mkNRGBA (uint8 (Z.shiftr r 8)) (uint8 (Z.shiftr g 8))
                (uint8 (Z.shiftr b 8)) 0xff
      else if a =? 0 then mkNRGBA 0 0 0 0
      else
        let r := uint32 (r * 0xffff) / a in
        let g := uint32 (g * 0xffff) / a in
        let b := uint32 (b * 0xffff) / a in
        mkNRGBA (uint8 (Z.shiftr r 8)) (uint8 (Z.shiftr g 8))
                (uint8 (Z.shiftr b 8)) (uint8 (Z.shiftr a 8))
  end.

(** ** The monochrome model of gotpi *)

(** [func monoModel(c color.Color) color.Color] *)
Definition monoModel (c : Color) : Color :=
  match c with
  | ColorPixel _ => c
  | _ =>
      let '(r, g, b, _) := Color_RGBA c in
      let y := uint32 (299 * r + 587 * g + 114 * b + 500) / 1000 in
      ColorPixel (uint16 y <? 0x8000)
  end.

(** [var MonochromeModel color.Model = color.ModelFunc(monoModel)]: its
    [Convert] method applies [monoModel]. *)
Definition MonochromeModel_Convert (c : Color) : Color := monoModel c.

(** ** Package image: points and rectangles *)

Record Point := mkPoint { X : Z; Y : Z }.
Record Rectangle := mkRectangle { Min : Point; Max : Point }.

(** [image.Rect]: swaps the coordinates where needed so that the rectangle
    is well-formed. *)
Definition image_Rect (x0 y0 x1 y1 : Z) : Rectangle :=
  let '(x0, x1) := if x1 <? x0 then (x1, x0) else (x0, x1) in
  let '(y0, y1) := if y1 <? y0 then (y1, y0) else (y0, y1) in
  mkRectangle (mkPoint x0 y0) (mkPoint x1 y1).

Definition Dx (r : Rectangle) : Z := X (Max r) - X (Min r).
Definition Dy (r : Rectangle) : Z := Y (Max r) - Y (Min r).

(** [func (p Point) In(r Rectangle) bool] *)
Definition Point_In (x y : Z) (r : Rectangle) : bool :=
  (X (Min r) <=? x) && (x <? X (Max r)) &&
  (Y (Min r) <=? y) && (y <? Y (Max r)).

(** ** Image objects *)

(** What a pointer held in an [image.Image] interface value points to: an
    [image.RGBA], an [image.NRGBA], or any other implementation, given by
    its [Bounds] and [At] methods. *)
Inductive ImgObj :=
| ObjRGBA (r : Rectangle) (pix : Z -> Z -> color_RGBA)
| ObjNRGBA (r : Rectangle) (pix : Z -> Z -> color_NRGBA)
| ObjOther (r : Rectangle) (at_ : Z -> Z -> Color).

Definition obj_Bounds (o : ImgObj) : Rectangle :=
  match o with
  | ObjRGBA r _ | ObjNRGBA r _ | ObjOther r _ => r
  end.

(** The method [At]: the rasters answer the zero color outside their
    rectangle. *)
Definition obj_At (o : ImgObj) (x y : Z) : Color :=
  match o with
  | ObjRGBA r pix =>
      if Point_In x y r then ColorRGBA (pix x y)
      else ColorRGBA (mkRGBA 0 0 0 0)
  | ObjNRGBA r pix =>
      if Point_In x y r then ColorNRGBA (pix x y)
      else ColorNRGBA (mkNRGBA 0 0 0 0)
  | ObjOther _ at_ => at_ x y
  end.

(** Writing one pixel of a pixel table. *)
Definition pix_set {C : Type} (pix : Z -> Z -> C) (x y : Z) (c : C)
  : Z -> Z -> C :=
  fun x' y' => if (x' =? x) && (y' =? y) then c else pix x' y'.

(** ** State, results and the monad of calls *)

(** Pointers are positions in the heap. *)
Abbreviation loc := nat (only parsing).

(** An [image.Image] interface value: a pointer to an image object. *)
Abbreviation Image := nat (only parsing).

(** A file: empty (just created or truncated), or the PNG encoding of an
    image, represented by the image it encodes. *)
Inductive File :=
| EmptyFile
| PNGFile (o : ImgObj).

Record World := mkWorld {
  heap : list ImgObj;          (* the image objects allocated so far *)
  entropy : list Z;            (* bytes the secure random source still holds *)
  files : gmap string File;    (* the files, by path *)
  refused : string -> bool;    (* paths the operating system refuses to create *)
  rand_aborts : bool           (* crypto/rand of Go 1.24 and later: a failed
                                  read aborts the program; with Go 1.22 and
                                  1.23 it returns the error *)
}.

Inductive Res (T : Type) :=
| Ok (v : T)
| Panic (msg : string).
Arguments Ok {T} v.
Arguments Panic {T} msg.

Definition M (T : Type) : Type := World -> Res (T * World).

Definition ret {T} (v : T) : M T := fun w => Ok (v, w).

Definition bind {T U} (m : M T) (k : T -> M U) : M U :=
  fun w => match m w with
           | Ok (v, w') => k v w'
           | Panic msg => Panic msg
           end.

Definition panic {T} (msg : string) : M T := fun _ => Panic msg.

Declare Scope go_scope.
Delimit Scope go_scope with go.
Notation "x <- m ;; k" := (bind m (fun x => k))
  (at level 100, m at next level, right associativity) : go_scope.
Notation "m ;;; k" := (bind m (fun _ => k))
  (at level 100, right associativity) : go_scope.
Local Open Scope go_scope.

(** [for i := lo; i < hi; i++ { body }], and [for i := range n] as
    [forZ 0 n]. *)
Definition forZ (lo hi : Z) (body : Z -> M unit) : M unit :=
  foldr (fun i k => body i ;;; k) (ret tt) (seqZ lo (hi - lo)).

Definition nil_deref : string :=
  "invalid memory address or nil pointer dereference".

(** Reading through a pointer. *)
Definition load (p : loc) : M ImgObj :=
  fun w => match heap w !! p with
           | Some o => Ok (o, w)
           | None => Panic nil_deref
           end.

(** Writing through a pointer. *)
Definition store (p : loc) (o : ImgObj) : M unit :=
  fun w => match heap w !! p with
           | Some _ => Ok (tt, mkWorld (<[p := o]> (heap w)) (entropy w) (files w) (refused w) (rand_aborts w))
           | None => Panic nil_deref
           end.

(** Allocating a new object. *)
Definition alloc (o : ImgObj) : M loc :=
  fun w => Ok (length (heap w),
               mkWorld (heap w ++ [o]) (entropy w) (files w) (refused w) (rand_aborts w)).

(** The methods [Bounds] and [At] of an interface value. *)
Definition Bounds (img : Image) : M Rectangle :=
  o <- load img ;; ret (obj_Bounds o).

Definition At (img : Image) (x y : Z) : M Color :=
  o <- load img ;; ret (obj_At o x y).

(** ** Package image: rasters *)

(** The largest [int], on a 64-bit platform. *)
Definition max_int : Z := 2 ^ 63 - 1.

(** [mul3NonNeg] of package image: [x*y*z], or -1 when an argument is
    negative or the product overflows [int].  The two products are taken
    with [bits.Mul64]: [hi != 0] is a product of 2^64 or more, and the last
    test rejects a low word that does not fit [int]. *)
Definition mul3NonNeg (x y z : Z) : Z :=
  if (x <? 0) || (y <? 0) || (z <? 0) then -1
  else if 2 ^ 64 <=? x * y then -1
  else if 2 ^ 64 <=? x * y * z then -1
  else if max_int <? x * y * z then -1
  else x * y * z.

(** [pixelBufferLength] of package image. *)

Definition pixelBufferLength (bytesPerPixel : Z) (r : Rectangle)
    (imageTypeName : string) : M Z :=
  let totalLength := mul3NonNeg bytesPerPixel (Dx r) (Dy r) in
  if totalLength <? 0
  then panic ("image: New" +:+ imageTypeName +:+
              " Rectangle has huge or negative dimensions")
  else ret totalLength.

(** [image.NewRGBA]: a zeroed raster. *)
Definition image_NewRGBA (r : Rectangle) : M loc :=
  pixelBufferLength 4 r "RGBA" ;;;
  alloc (ObjRGBA r (fun _ _ => mkRGBA 0 0 0 0)).

(** [image.NewNRGBA]: a zeroed raster. *)
Definition image_NewNRGBA (r : Rectangle) : M loc :=
  pixelBufferLength 4 r "NRGBA" ;;;
  alloc (ObjNRGBA r (fun _ _ => mkNRGBA 0 0 0 0)).

(** [func (p *RGBA) Set(x, y int, c color.Color)]: nothing outside the
    rectangle; inside, the color converted by [color.RGBAModel]. *)
Definition RGBA_Set (p : loc) (x y : Z) (c : Color) : M unit :=
  o <- load p ;;
  match o with
  | ObjRGBA r pix =>
      if Point_In x y r then store p (ObjRGBA r (pix_set pix x y (rgbaModel c)))
      else ret tt
  | _ => panic "not an *image.RGBA"
  end.

(** [func (p *NRGBA) Set(x, y int, c color.Color)] *)
Definition NRGBA_Set (p : loc) (x y : Z) (c : Color) : M unit :=
  o <- load p ;;
  match o with
  | ObjNRGBA r pix =>
      if Point_In x y r then store p (ObjNRGBA r (pix_set pix x y (nrgbaModel c)))
      else ret tt
  | _ => panic "not an *image.NRGBA"
  end.

(** ** Package github.com/nfnt/resize *)

(** An interpolation function, by what [resize.Resize] does with it on the
    paths it computes in floating point (the dimension derived when [width]
    or [height] is 0, and the interpolation itself): the raster of the image
    [Resize] allocates, or [None] where [Resize] hands back its argument. *)
Definition InterpolationFunction := Z -> Z -> ImgObj -> option ImgObj.

(** [func Resize(width, height uint, img image.Image, interp
    InterpolationFunction) image.Image]: the input image itself when it
    already has the requested dimensions or has no pixels. *)
Definition Resize (width height : Z) (img : Image)
    (interp : InterpolationFunction) : M Image :=
  o <- load img ;;
  let b := obj_Bounds o in
  if (width =? 0) || (height =? 0) then
    match interp width height o with
    | None => ret img
    | Some o' => alloc o'
    end
  else if (width =? Dx b) && (height =? Dy b) then ret img
  else if (Dx b <=? 0) || (Dy b <=? 0) then ret img
  else
    match interp width height o with
    | None => ret img
    | Some o' => alloc o'
    end.

(** ** Package crypto/rand *)

(** [rand.Read(b)]: fills [b] from the secure source and returns the number
    of bytes read and whether an error occurred.  When the source holds fewer
    bytes than asked for the read fails: with Go 1.22 and 1.23 the rest of
    [b] is left as it was and the error is returned; from Go 1.24 on the
    program is aborted, which nothing can recover from and is modelled like
    a panic (the text of the fatal error is cut before the error of the
    source, which it ends with).  The buffer is passed by reference in Go; here its new content
    is returned. *)
Definition rand_Read (b : list Z) : M (list Z * Z * bool) :=
  fun w =>
    let got := take (length b) (entropy w) in
    if rand_aborts w && negb (Nat.eqb (length got) (length b))
    then Panic "fatal error: crypto/rand: failed to read random data"
    else
    Ok ((got ++ drop (length got) b,
         Z.of_nat (length got),
         negb (Nat.eqb (length got) (length b))),
        mkWorld (heap w) (drop (length b) (entropy w)) (files w) (refused w) (rand_aborts w)).

(** ** Package gotpi: key generation (otp.go) *)

(** [func keyGenBW(width, height int) image.Image] *)
Definition keyGenBW (width height : Z) : M Image :=
  k <- image_NewNRGBA (image_Rect 0 0 width height) ;;
  forZ 0 height (fun y =>
    forZ 0 width (fun x =>
      res <- rand_Read [0] ;;
      let '(b, _, _) := res in
      if Z.land (nth 0 b 0) 1 =? 0
      then NRGBA_Set k x y (ColorPixel Black)
      else NRGBA_Set k x y (ColorPixel White))) ;;;
  ret k.

(** [func keyGenRGB(width, height int) image.Image] *)
Definition keyGenRGB (width height : Z) : M Image :=
  k <- image_NewNRGBA (image_Rect 0 0 width height) ;;
  forZ 0 height (fun y =>
    forZ 0 width (fun x =>
      res <- rand_Read [0; 0; 0] ;;
      let '(pix, _, _) := res in
      NRGBA_Set k x y
        (ColorRGBA (mkRGBA (nth 0 pix 0) (nth 1 pix 0) (nth 2 pix 0) 255)))) ;;;
  ret k.

(** [func KeyGen(kw int, rgb bool) image.Image] *)
Definition KeyGen (kw : Z) (rgb : bool) : M Image :=
  if rgb then keyGenRGB kw kw else keyGenBW kw kw.

(** ** Package gotpi: the transform (otp.go) *)

(** [func encRGB(img, k image.Image, out *image.RGBA)] *)
Definition encRGB (img k : Image) (out : loc) : M unit :=
  bounds <- Bounds k ;;
  forZ (Y (Min bounds)) (Y (Max bounds)) (fun y =>
    forZ (X (Min bounds)) (X (Max bounds)) (fun x =>
      c <- At img x y ;;
      let '(r, g, b, _) := Color_RGBA c in
      kc <- At k x y ;;
      let '(kr, kg, kb, _) := Color_RGBA kc in
      let resR := Z.lxor (uint8 (Z.shiftr r 8)) (uint8 (Z.shiftr kr 8)) in
      let resG := Z.lxor (uint8 (Z.shiftr g 8)) (uint8 (Z.shiftr kg 8)) in
      let resB := Z.lxor (uint8 (Z.shiftr b 8)) (uint8 (Z.shiftr kb 8)) in
      RGBA_Set out x y (ColorRGBA (mkRGBA resR resG resB 255)))).

(** The type assertion [.(Pixel)]. *)
Definition assert_Pixel (c : Color) : M Pixel :=
  match c with
  | ColorPixel p => ret p
  | _ => panic "interface conversion: color.Color is not gotpi.Pixel"
  end.

(** [func encBW(img, k image.Image, out *image.RGBA)] *)
Definition encBW (img k : Image) (out : loc) : M unit :=
  bounds <- Bounds k ;;
  monoResized <- image_NewRGBA bounds ;;
  forZ (Y (Min bounds)) (Y (Max bounds)) (fun y =>
    forZ (X (Min bounds)) (X (Max bounds)) (fun x =>
      c <- At img x y ;;
      let p := MonochromeModel_Convert c in
      RGBA_Set monoResized x y p)) ;;;
  forZ (Y (Min bounds)) (Y (Max bounds)) (fun y =>
    forZ (X (Min bounds)) (X (Max bounds)) (fun x =>
      c <- At monoResized x y ;;
      origPixel <- assert_Pixel (MonochromeModel_Convert c) ;;
      kc <- At k x y ;;
      keyPixel <- assert_Pixel (MonochromeModel_Convert kc) ;;
      let result := if negb (Bool.eqb origPixel keyPixel) then Black else White in
      RGBA_Set out x y (ColorPixel result))).

Section Transform.

(** [resize.Lanczos3], the interpolation the package asks for. *)
Variable Lanczos3 : InterpolationFunction.

(** [func Encrypt(img image.Image, keyImg image.Image, rgb bool) image.Image] *)
Definition Encrypt (img keyImg : Image) (rgb : bool) : M Image :=
  bounds <- Bounds keyImg ;;
  kb <- Bounds keyImg ;;
  out <- image_NewRGBA kb ;;
  img <- Resize (Dx bounds) (Dy bounds) img Lanczos3 ;;
  (if rgb then encRGB img keyImg out else encBW img keyImg out) ;;;
  ret out.

(** [func Decrypt(img image.Image, keyImg image.Image, rgb bool) image.Image] *)
Definition Decrypt (img keyImg : Image) (rgb : bool) : M Image :=
  Encrypt img keyImg rgb.

End Transform.

(** ** The earlier revisions of [KeyGen], which receive the key-file path *)

Module part_001.

(** [func KeyGen(keyFile string, kw int, rgb bool) image.Image] *)
Definition KeyGen (keyFile : string) (kw : Z) (rgb : bool) : M Image :=
  if rgb then keyGenRGB kw kw else keyGenBW kw kw.

Section Transform.

Variable Lanczos3 : InterpolationFunction.

(** [func Encrypt(img image.Image, keyImg image.Image, rgb bool) image.Image]
    of this revision: the source is resized before the output is allocated.
    Its [encRGB] and [encBW] are, word for word, those of otp.go. *)
Definition Encrypt (img keyImg : Image) (rgb : bool) : M Image :=
  bounds <- Bounds keyImg ;;
  resizedImg <- Resize (Dx bounds) (Dy bounds) img Lanczos3 ;;
  kb <- Bounds keyImg ;;
  out <- image_NewRGBA kb ;;
  (if rgb then encRGB resizedImg keyImg out else encBW resizedImg keyImg out) ;;;
  ret out.

(** [func Decrypt(img image.Image, keyImg image.Image, rgb bool) image.Image] *)
Definition Decrypt (img keyImg : Image) (rgb : bool) : M Image :=
  Encrypt img keyImg rgb.

End Transform.

End part_001.

Module part_000.

(** [func KeyGen(keyFile *string, kw *int, rgb bool) image.Image]: the
    pointers are [None] when nil; only [kw] is dereferenced. *)
Definition KeyGen (keyFile : option string) (kw : option Z) (rgb : bool)
  : M Image :=
  match kw with
  | None => panic nil_deref
  | Some kw => if rgb then keyGenRGB kw kw else keyGenBW kw kw
  end.

End part_000.

(** ** The command-line helper [save] (cmd/gotpi/main.go) *)

(** [png.Encode]: rejects an image whose width or height is not positive or
    does not fit 32 bits; otherwise the file receives the encoding. *)
Definition png_Encode (path : string) (img : Image) : M (option string) :=
  b <- Bounds img ;;
  let mw := Dx b in
  let mh := Dy b in
  if (mw <=? 0) || (mh <=? 0) || (2 ^ 32 <=? mw) || (2 ^ 32 <=? mh)
  then ret (Some "png: invalid format: invalid image size")
  else
    o <- load img ;;
    fun w => Ok (None, mkWorld (heap w) (entropy w)
                         (<[path := PNGFile o]> (files w)) (refused w) (rand_aborts w)).

(** [os.Create]: creates the file or truncates it, unless the operating
    system refuses. *)
Definition os_Create (path : string) : M (option string) :=
  fun w =>
    if refused w path then Ok (Some "open: refused", w)
    else Ok (None, mkWorld (heap w) (entropy w)
                     (<[path := EmptyFile]> (files w)) (refused w) (rand_aborts w)).

(** [func save(path string, img image.Image)] *)
Definition save (path : string) (img : Image) : M unit :=
  err <- os_Create path ;;
  match err with
  | Some e => panic e
  | None =>
      err <- png_Encode path img ;;
      match err with
      | Some e => panic e
      | None => ret tt
      end
  end.

(** An integer nearest-neighbour sampler: one interpolation function, used
    to run the model on concrete inputs. *)
Definition nearest : InterpolationFunction :=
  fun width height o =>
    let b := obj_Bounds o in
    Some (ObjRGBA (image_Rect 0 0 width height)
            (fun x y => rgbaModel (obj_At o (X (Min b) + x * Dx b / width)
                                            (Y (Min b) + y * Dy b / height)))).


(** ** Vocabulary of the statements *)

(** The 8-bit intensity the transform extracts from a 16-bit channel:
    [uint8(r>>8)]. *)
Definition chan8 (v : Z) : Z := uint8 (Z.shiftr v 8).

(** The 8-bit red, green and blue intensities of a color, as [encRGB]
    extracts them; the alpha channel is dropped. *)
Definition rgb8 (c : Color) : Z * Z * Z :=
  let '(r, g, b, _) := Color_RGBA c in (chan8 r, chan8 g, chan8 b).

(** The pixel [encRGB] writes from a source color and a key color. *)
Definition xor_pixel (c kc : Color) : color_RGBA :=
  let '(r, g, b) := rgb8 c in
  let '(kr, kg, kb) := rgb8 kc in
  mkRGBA (Z.lxor r kr) (Z.lxor g kg) (Z.lxor b kb) 255.

(** The Black/White tag of a color: the result of the monochrome model. *)
Definition tag (c : Color) : Pixel :=
  match monoModel c with
  | ColorPixel p => p
  | _ => White
  end.

(** The tag [encBW] writes from the tags of the source and of the key. *)
Definition bw_result (s k : Pixel) : Pixel :=
  if negb (Bool.eqb s k) then Black else White.

(** The [color.RGBA] value a raster stores for a tag. *)
Definition tag_RGBA (p : Pixel) : color_RGBA := rgbaModel (ColorPixel p).

(** A heap differs from that of [w0] at most at the pointer [p]. *)
Definition agrees_off (p : nat) (w0 : World) (h : list ImgObj) : Prop :=
  length h = length (heap w0) /\ forall l, l <> p -> h !! l = heap w0 !! l.

(** Two nested loops over the columns [x0 .. x1 - 1] inside the rows
    [y0 .. y1 - 1]: the rank of a coordinate in the order of the visits, the
    coordinates already visited when the loops stand at row [y] and column
    [x], and the coordinates visited in all. *)
Definition fill_idx (x0 x1 y0 y x : Z) : nat :=
  Z.to_nat ((y - y0) * Z.max 0 (x1 - x0) + (x - x0)).

Definition fill_done (x0 x1 y0 y x x' y' : Z) : bool :=
  (x0 <=? x') && (x' <? x1) && (y0 <=? y') &&
  ((y' <? y) || ((y' =? y) && (x' <? x))).

Definition fill_range (x0 x1 y0 y1 x' y' : Z) : bool :=
  (x0 <=? x') && (x' <? x1) && (y0 <=? y') && (y' <? y1).

(** A state differs from an earlier one only by objects allocated since. *)
Definition extends (w w' : World) : Prop :=
  (exists new, heap w' = heap w ++ new) /\
  entropy w' = entropy w /\ files w' = files w /\ refused w' = refused w /\
  rand_aborts w' = rand_aborts w.

(** The image object [Resize] answers with, for a source object [o]. *)
Definition resized (interp : InterpolationFunction) (width height : Z)
    (o : ImgObj) : ImgObj :=
  let b := obj_Bounds o in
  if (width =? 0) || (height =? 0) then default o (interp width height o)
  else if (width =? Dx b) && (height =? Dy b) then o
  else if (Dx b <=? 0) || (Dy b <=? 0) then o
  else default o (interp width height o).

(** The pixel the transform writes at given coordinates, from the resized
    source object and the key object. *)
Definition transform_pixel (rgb : bool) (ro ko : ImgObj) (x y : Z) : color_RGBA :=
  if rgb then xor_pixel (obj_At ro x y) (obj_At ko x y)
  else tag_RGBA (bw_result (tag (obj_At ro x y)) (tag (obj_At ko x y))).

(** The byte of a stream at a position; 0 past its end, which is what the
    zeroed buffer of a failed [rand.Read] holds. *)
Definition byte_at (e : list Z) (i : nat) : Z := nth i e 0.

(** The pixel [keyGenBW] stores for a random byte. *)
Definition bw_key_pixel (byte : Z) : color_NRGBA :=
  if Z.land byte 1 =? 0 then nrgbaModel (ColorPixel Black)
  else nrgbaModel (ColorPixel White).

(** The pixel [keyGenRGB] stores for three random bytes. *)
Definition rgb_key_pixel (b0 b1 b2 : Z) : color_NRGBA :=
  nrgbaModel (ColorRGBA (mkRGBA b0 b1 b2 255)).

(** Inside the square of a key of width and height [n]. *)
Definition in_key (width height x y : Z) : bool :=
  (0 <=? x) && (x <? width) && (0 <=? y) && (y <? height).

(** ** Observing results and building concrete inputs *)

(** Whether a call panicked. *)
Definition fails {T : Type} (r : Res T) : bool :=
  match r with
  | Panic _ => true
  | Ok _ => false
  end.

(** The colors of an image inside its bounds, row by row. *)
Definition obj_pixels (o : ImgObj) : list Color :=
  let b := obj_Bounds o in
  concat (map (fun y => map (fun x => obj_At o x y) (seqZ (X (Min b)) (Dx b)))
              (seqZ (Y (Min b)) (Dy b))).

(** The bounds and the colors of the image a call returned. *)
Definition result_image (r : Res (nat * World))
  : option (Rectangle * list Color) :=
  match r with
  | Ok (img, w) =>
      match heap w !! img with
      | Some o => Some (obj_Bounds o, obj_pixels o)
      | None => None
      end
  | Panic _ => None
  end.

(** The random bytes left after a call. *)
Definition result_entropy {T : Type} (r : Res (T * World)) : option (list Z) :=
  match r with
  | Ok (_, w) => Some (entropy w)
  | Panic _ => None
  end.

(** An opaque [image.RGBA] of a given width at the origin, from its pixels
    row by row. *)
Definition raster (width : Z) (l : list (Z * Z * Z)) : ImgObj :=
  ObjRGBA (image_Rect 0 0 width (Z.of_nat (length l) / width))
    (fun x y =>
       let '(r, g, b) := nth (Z.to_nat (y * width + x)) l (0, 0, 0) in
       mkRGBA r g b 255).

(** A state holding the given images and random bytes, and no file. *)
Definition world_of (imgs : list ImgObj) (bytes : list Z) : World :=
  mkWorld imgs bytes ∅ (fun _ => false) false.

Definition example_key : ImgObj :=
  raster 2 [(10, 20, 30); (40, 50, 60); (70, 80, 90); (100, 110, 120)].

Definition example_source : ImgObj :=
  raster 2 [(5, 6, 7); (8, 9, 10); (11, 12, 13); (14, 15, 16)].

Definition mid_gray : Color := ColorRGBA (mkRGBA 128 128 128 255).

(** The state of the worked example: the key at pointer 0, the source at
    pointer 1. *)
Definition example_world : World := world_of [example_key; example_source] [].

(** A 1x1 image, and a state where it is the source of a 2x2 key. *)
Definition one_pixel : ImgObj := raster 1 [(200, 100, 50)].

Definition resize_world : World := world_of [example_key; one_pixel] [].

(** The pixel [KeyGen] stores at the [i]-th coordinate, row by row, from
    the stream it started with. *)
Definition key_pixel (rgb : bool) (e : list Z) (i : nat) : color_NRGBA :=
  if rgb
  then rgb_key_pixel (byte_at e (3 * i)) (byte_at e (3 * i + 1))
         (byte_at e (3 * i + 2))
  else bw_key_pixel (byte_at e i).

(** Random bytes [KeyGen] draws per pixel. *)
Definition bytes_per_pixel (rgb : bool) : nat := if rgb then 3%nat else 1%nat.

(** Two states with the same random bytes and different heaps and files. *)
Definition bytes_world : World := world_of [] [1; 2; 3; 4; 5; 6; 7; 8; 9; 10; 11; 12].

Definition other_world : World :=
  mkWorld [example_key] [1; 2; 3; 4; 5; 6; 7; 8; 9; 10; 11; 12]
    {["otp-key.png" := EmptyFile]} (fun _ => false) false.

(** A channel value that fits 8 bits. *)
Definition is_byte (v : Z) : Prop := 0 <= v < 256.

(** A [color.RGBA] value that is fully opaque, with 8-bit channels. *)
Definition opaque_RGBA (c : color_RGBA) : Prop :=
  is_byte (R c) /\ is_byte (G c) /\ is_byte (B c) /\ A c = 255.

(** The 16-bit luminance of the monochrome model. *)
Definition luma (r g b : Z) : Z := (299 * r + 587 * g + 114 * b + 500) / 1000.

(** A state with three images: two sources and a key. *)
Definition second_source : ImgObj :=
  raster 2 [(255, 0, 0); (0, 255, 0); (0, 0, 255); (9, 9, 9)].

Definition three_world : World :=
  world_of [example_key; example_source; second_source] [].



(** A black-and-white source, and a state where it is the source of the
    example key. *)
Definition bw_source : ImgObj :=
  raster 2 [(0, 0, 0); (255, 255, 255); (255, 255, 255); (0, 0, 0)].

Definition bw_world : World := world_of [example_key; bw_source] [].

(** An image of some other type whose bounds are not well-formed, and a
    state where it is the key. *)
Definition bad_key : ImgObj :=
  ObjOther (mkRectangle (mkPoint 5 5) (mkPoint 0 0)) (fun _ _ => ColorPixel Black).

Definition bad_key_world : World := world_of [bad_key; example_source] [].

(** Another dark source, and a state with two dark sources for one key. *)
Definition dark_source : ImgObj :=
  raster 2 [(1, 1, 1); (20, 2, 2); (3, 30, 3); (4, 4, 40)].

Definition dark_world : World :=
  world_of [example_key; example_source; dark_source] [].

(** A rectangle [image.NewRGBA] and [image.NewNRGBA] accept: non-negative
    dimensions and a buffer of 4 bytes per pixel whose length fits [int]. *)
Definition allocatable (r : Rectangle) : Prop :=
  0 <= Dx r /\ 0 <= Dy r /\ 4 * Dx r < 2 ^ 64 /\ 4 * Dx r * Dy r <= max_int.

(** The reads of [need] random bytes in all go through: the source holds
    them, or it is one that returns its error. *)
Definition reads_pass (w : World) (need : nat) : Prop :=
  rand_aborts w = false \/ (need <= length (entropy w))%nat.

(** A state like [world_of], with the crypto/rand of Go 1.24 and later. *)
Definition aborting_world_of (imgs : list ImgObj) (bytes : list Z) : World :=
  mkWorld imgs bytes ∅ (fun _ => false) true.

(** A source with the dimensions of the example key, away from the origin,
    and a state where it is the source of that key. *)
Definition offset_source : ImgObj :=
  ObjRGBA (mkRectangle (mkPoint 10 10) (mkPoint 12 12))
    (fun _ _ => mkRGBA 200 100 50 255).

Definition offset_world : World := world_of [example_key; offset_source] [].

(** A state whose random source is exhausted, holding the example source. *)
Definition exhausted_world : World := world_of [example_source] [].


(** * Properties *)

(** ** Loops *)

Lemma bind_Ok {T U} (m : M T) (k : T -> M U) w v w' :
  m w = Ok (v, w') -> bind m k w = k v w'.
Proof. intros H. unfold bind. now rewrite H. Qed.

Lemma forZ_empty lo hi body : hi <= lo -> forZ lo hi body = ret tt.
Proof.
  intros H. unfold forZ, seqZ.
  replace (Z.to_nat (hi - lo)) with 0%nat by lia. reflexivity.
Qed.

Lemma forZ_step lo hi body :
  lo < hi -> forZ lo hi body = (body lo ;;; forZ (lo + 1) hi body).
Proof.
  intros H. unfold forZ. rewrite seqZ_cons by lia. simpl.
  replace (Z.succ lo) with (lo + 1) by lia.
  replace (Z.pred (hi - lo)) with (hi - (lo + 1)) by lia. reflexivity.
Qed.

(** A loop that keeps an invariant indexed by its counter runs to its end. *)
Lemma forZ_inv (I : Z -> World -> Prop) lo hi body :
  lo <= hi ->
  (forall i w, lo <= i < hi -> I i w ->
     exists w', body i w = Ok (tt, w') /\ I (i + 1) w') ->
  forall w, I lo w -> exists w', forZ lo hi body w = Ok (tt, w') /\ I hi w'.
Proof.
  intros Hle Hstep.
  remember (Z.to_nat (hi - lo)) as n eqn:Hn.
  revert lo Hle Hstep Hn. induction n as [|n IH]; intros lo Hle Hstep Hn w HI.
  - assert (lo = hi) by lia. subst lo.
    rewrite forZ_empty by lia. exists w. split; [reflexivity | assumption].
  - assert (lo < hi) by lia.
    rewrite forZ_step by assumption.
    destruct (Hstep lo w ltac:(lia) HI) as (w1 & Hb & HI1).
    rewrite (bind_Ok _ _ _ _ _ Hb).
    apply IH; try lia; try assumption.
    intros i w2 Hi. apply Hstep. lia.
Qed.

(** Two nested loops, rows outside and columns inside: the invariant is
    indexed by the row and the column reached. *)
Lemma forZ2_inv (I : Z -> Z -> World -> Prop) x0 x1 y0 y1 body :
  y0 <= y1 ->
  (forall x y w, y0 <= y < y1 -> x0 <= x < x1 -> I y x w ->
     exists w', body y x w = Ok (tt, w') /\ I y (x + 1) w') ->
  (forall y w, y0 <= y < y1 -> I y (Z.max x0 x1) w -> I (y + 1) x0 w) ->
  forall w, I y0 x0 w ->
  exists w', forZ y0 y1 (fun y => forZ x0 x1 (body y)) w = Ok (tt, w') /\
             I y1 x0 w'.
Proof.
  intros Hy Hstep Hrow w HI.
  apply (forZ_inv (fun y w => I y x0 w)); try assumption.
  intros y w1 Hyr HI1.
  destruct (Z_le_gt_dec x0 x1) as [Hx|Hx].
  - destruct (forZ_inv (fun x w => I y x w) x0 x1 (body y) Hx) with (w := w1)
      as (w2 & Hrun & HI2); try assumption.
    + intros x w2 Hxr HI2. now apply Hstep.
    + exists w2. split; [assumption|]. apply Hrow; [assumption|].
      now replace (Z.max x0 x1) with x1 by lia.
  - rewrite forZ_empty by lia. exists w1. split; [reflexivity|].
    apply Hrow; [assumption|]. now replace (Z.max x0 x1) with x0 by lia.
Qed.

(** ** Filling a raster pixel by pixel *)

Ltac zbool :=
  repeat match goal with
    | |- context [?a <=? ?b] => destruct (Z.leb_spec a b)
    | |- context [?a <? ?b] => destruct (Z.ltb_spec a b)
    | |- context [?a =? ?b] => destruct (Z.eqb_spec a b)
    end; simpl; try reflexivity; try lia.

Ltac zhyp :=
  repeat match goal with
    | H : _ && _ = true |- _ => apply andb_true_iff in H; destruct H
    | H : (_ <=? _) = true |- _ => apply Z.leb_le in H
    | H : (_ <? _) = true |- _ => apply Z.ltb_lt in H
    | H : (_ =? _) = true |- _ => apply Z.eqb_eq in H
    end.

Section Fill.

Context {C : Type}.
Variable mkobj : Rectangle -> (Z -> Z -> C) -> ImgObj.
Variable p : loc.
Variable r : Rectangle.
Variables x0 x1 y0 y1 : Z.
(** Random bytes drawn per pixel, and the pixel written at given
    coordinates from the stream as it stands there. *)
Variable m : nat.
Variable F : list Z -> Z -> Z -> C.
Variable body : Z -> Z -> M unit.
Variable w0 : World.

Local Abbreviation agrees := (agrees_off p w0).
Local Abbreviation idx := (fill_idx x0 x1 y0).
Local Abbreviation done_at := (fill_done x0 x1 y0).
Local Abbreviation in_range := (fill_range x0 x1 y0 y1).

Hypothesis Hbody : forall x y w pix,
  y0 <= y < y1 -> x0 <= x < x1 ->
  heap w !! p = Some (mkobj r pix) -> agrees (heap w) ->
  rand_aborts w = rand_aborts w0 ->
  entropy w = drop (m * idx y x) (entropy w0) ->
  body y x w =
    Ok (tt, mkWorld (<[p := mkobj r (pix_set pix x y (F (entropy w) x y))]> (heap w))
              (drop m (entropy w)) (files w) (refused w) (rand_aborts w)).

Lemma fill_spec pix0 :
  heap w0 !! p = Some (mkobj r pix0) ->
  exists w' pix',
    forZ y0 y1 (fun y => forZ x0 x1 (body y)) w0 = Ok (tt, w') /\
    files w' = files w0 /\
    (refused w' = refused w0 /\ rand_aborts w' = rand_aborts w0) /\
    entropy w' =
      drop (m * Z.to_nat ((y1 - y0) * Z.max 0 (x1 - x0))) (entropy w0) /\
    agrees (heap w') /\
    heap w' !! p = Some (mkobj r pix') /\
    forall x y, pix' x y =
      if in_range x y then F (drop (m * idx y x) (entropy w0)) x y
      else pix0 x y.
Proof.
  intros Hp.
  destruct (Z_le_gt_dec y0 y1) as [Hy|Hy].
  2:{ exists w0, pix0. rewrite forZ_empty by lia.
      repeat split; try reflexivity; try assumption.
      - replace (Z.to_nat _) with 0%nat by nia. now rewrite Nat.mul_0_r.
      - intros x y. unfold fill_range. zbool.
        all: rewrite ?andb_false_r; reflexivity. }
  set (I := fun (y x : Z) (w : World) =>
    files w = files w0 /\
    (refused w = refused w0 /\ rand_aborts w = rand_aborts w0) /\
    entropy w = drop (m * idx y x) (entropy w0) /\
    agrees (heap w) /\
    exists pix, heap w !! p = Some (mkobj r pix) /\
      forall x' y', pix x' y' =
        if done_at y x x' y'
        then F (drop (m * idx y' x') (entropy w0)) x' y'
        else pix0 x' y').
  destruct (forZ2_inv I x0 x1 y0 y1 body Hy) with (w := w0)
    as (w' & Hrun & Hf & [Hr Hab] & He & Ha & pix' & Hp' & Hpix).
  - (* one pixel *)
    intros x y w Hyr Hxr (Hf & [Hr Hab] & He & Ha & pix & Hpw & Hpix).
    eexists. split; [apply Hbody; eassumption|].
    unfold I; simpl. repeat split; try assumption.
    + rewrite He, drop_drop. f_equal.
      assert (idx y (x + 1) = S (idx y x)) as ->; [|lia].
      unfold fill_idx.
      assert (0 <= (y - y0) * Z.max 0 (x1 - x0)) by (apply Z.mul_nonneg_nonneg; lia).
      lia.
    + rewrite length_insert. apply Ha.
    + intros l Hl. rewrite list_lookup_insert_ne by congruence. now apply Ha.
    + eexists. split.
      * apply list_lookup_insert_eq. eapply lookup_lt_Some; eassumption.
      * intros x' y'. unfold pix_set. rewrite Hpix, He.
        unfold fill_done.
        destruct (Z.eqb_spec x' x) as [->|Hx'];
          destruct (Z.eqb_spec y' y) as [->|Hy']; simpl.
        -- zbool.
        -- destruct (x0 <=? x), (x <? x1), (y0 <=? y'), (y' <? y); simpl; try reflexivity.
        -- destruct (x0 <=? x'), (x' <? x1), (y0 <=? y), (y <? y); simpl;
             try reflexivity; zbool.
        -- destruct (x0 <=? x'), (x' <? x1), (y0 <=? y'), (y' <? y); simpl; try reflexivity.
  - (* end of a row *)
    intros y w Hyr (Hf & [Hr Hab] & He & Ha & pix & Hpw & Hpix).
    unfold I. repeat split; try apply Ha; try assumption.
    + rewrite He. f_equal. f_equal. unfold fill_idx. f_equal. lia.
    + exists pix. split; [assumption|]. intros x' y'. rewrite Hpix.
      replace (done_at (y + 1) x0 x' y') with (done_at y (Z.max x0 x1) x' y');
        [reflexivity|].
      unfold fill_done. zbool.
  - (* entry *)
    unfold I. repeat split; try reflexivity.
    + unfold fill_idx. replace (Z.to_nat _) with 0%nat by lia.
      now rewrite Nat.mul_0_r.
    + exists pix0. split; [assumption|]. intros x' y'.
      unfold fill_done. zbool.
  - exists w', pix'. repeat split; try assumption; try apply Ha.
    + rewrite He. f_equal. f_equal. unfold fill_idx. f_equal. lia.
    + intros x y. rewrite Hpix. unfold fill_done, fill_range. zbool.
Qed.

End Fill.

(** ** Primitive steps *)

Lemma At_Ok img x y w o :
  heap w !! img = Some o -> At img x y w = Ok (obj_At o x y, w).
Proof. intros H. unfold At, load, bind, ret. now rewrite H. Qed.

Lemma Bounds_Ok img w o :
  heap w !! img = Some o -> Bounds img w = Ok (obj_Bounds o, w).
Proof. intros H. unfold Bounds, load, bind, ret. now rewrite H. Qed.

Lemma RGBA_Set_Ok p x y c w r pix :
  heap w !! p = Some (ObjRGBA r pix) -> Point_In x y r = true ->
  RGBA_Set p x y c w =
    Ok (tt, mkWorld (<[p := ObjRGBA r (pix_set pix x y (rgbaModel c))]> (heap w))
              (entropy w) (files w) (refused w) (rand_aborts w)).
Proof.
  intros H Hin. unfold RGBA_Set, load, bind. rewrite H, Hin.
  unfold store. now rewrite H.
Qed.

Lemma NRGBA_Set_Ok p x y c w r pix :
  heap w !! p = Some (ObjNRGBA r pix) -> Point_In x y r = true ->
  NRGBA_Set p x y c w =
    Ok (tt, mkWorld (<[p := ObjNRGBA r (pix_set pix x y (nrgbaModel c))]> (heap w))
              (entropy w) (files w) (refused w) (rand_aborts w)).
Proof.
  intros H Hin. unfold NRGBA_Set, load, bind. rewrite H, Hin.
  unfold store. now rewrite H.
Qed.

Lemma Point_In_range x y r :
  X (Min r) <= x < X (Max r) -> Y (Min r) <= y < Y (Max r) ->
  Point_In x y r = true.
Proof. intros Hx Hy. unfold Point_In. zbool. Qed.

(** ** encRGB *)

Lemma encRGB_spec img k out w so ko pix0 :
  heap w !! img = Some so -> heap w !! k = Some ko ->
  heap w !! out = Some (ObjRGBA (obj_Bounds ko) pix0) ->
  img <> out -> k <> out ->
  exists w' pix',
    encRGB img k out w = Ok (tt, w') /\
    files w' = files w /\
    (refused w' = refused w /\ rand_aborts w' = rand_aborts w) /\
    entropy w' = entropy w /\
    agrees_off out w (heap w') /\
    heap w' !! out = Some (ObjRGBA (obj_Bounds ko) pix') /\
    forall x y, pix' x y =
      if Point_In x y (obj_Bounds ko)
      then xor_pixel (obj_At so x y) (obj_At ko x y)
      else pix0 x y.
Proof.
  intros Hs Hk Ho Hso Hko.
  set (b := obj_Bounds ko).
  destruct (fill_spec ObjRGBA out b (X (Min b)) (X (Max b)) (Y (Min b)) (Y (Max b))
              0%nat (fun _ x y => xor_pixel (obj_At so x y) (obj_At ko x y))
              (fun y x =>
                 c <- At img x y ;;
                 let '(r, g, b, _) := Color_RGBA c in
                 kc <- At k x y ;;
                 let '(kr, kg, kb, _) := Color_RGBA kc in
                 let resR := Z.lxor (uint8 (Z.shiftr r 8)) (uint8 (Z.shiftr kr 8)) in
                 let resG := Z.lxor (uint8 (Z.shiftr g 8)) (uint8 (Z.shiftr kg 8)) in
                 let resB := Z.lxor (uint8 (Z.shiftr b 8)) (uint8 (Z.shiftr kb 8)) in
                 RGBA_Set out x y (ColorRGBA (mkRGBA resR resG resB 255)))%go
              w) with (pix0 := pix0)
    as (w' & pix' & Hrun & Hf & [Hr Hab] & He & Ha & Hp & Hpix).
  - intros x y w1 pix Hy Hx Hp1 [_ Hoff] _ _.
    rewrite (bind_Ok _ _ _ _ _ (At_Ok img x y w1 so ltac:(rewrite Hoff; auto))).
    unfold xor_pixel, rgb8, chan8.
    destruct (Color_RGBA (obj_At so x y)) as [[[r g] bl] a].
    rewrite (bind_Ok _ _ _ _ _ (At_Ok k x y w1 ko ltac:(rewrite Hoff; auto))).
    destruct (Color_RGBA (obj_At ko x y)) as [[[kr kg] kb] ka].
    now rewrite (RGBA_Set_Ok _ _ _ _ _ _ _ Hp1 (Point_In_range _ _ _ Hx Hy)).
  - assumption.
  - exists w', pix'. unfold encRGB.
    rewrite (bind_Ok _ _ _ _ _ (Bounds_Ok k w ko Hk)).
    fold b. repeat split; try assumption; apply Ha.
Qed.

(** ** Allocation *)

(** Solves [allocatable r] for a concrete rectangle. *)
Ltac allocatable_concrete :=
  unfold allocatable; split; [|split; [|split]]; vm_compute; congruence.

Lemma pixelBufferLength_Ok r name w :
  allocatable r ->
  pixelBufferLength 4 r name w = Ok (4 * Dx r * Dy r, w).
Proof.
  intros (Hx & Hy & H4 & Hm). unfold pixelBufferLength, mul3NonNeg.
  unfold max_int in *.
  destruct (Z.ltb_spec (Dx r) 0); [lia|].
  destruct (Z.ltb_spec (Dy r) 0); [lia|]. simpl.
  destruct (Z.leb_spec (2 ^ 64) (4 * Dx r)); [lia|].
  destruct (Z.leb_spec (2 ^ 64) (4 * Dx r * Dy r)); [lia|].
  destruct (Z.ltb_spec (2 ^ 63 - 1) (4 * Dx r * Dy r)); [lia|].
  destruct (Z.ltb_spec (4 * Dx r * Dy r) 0); [nia|]. reflexivity.
Qed.

(** A rectangle that is not [allocatable] makes the allocation panic. *)
Lemma pixelBufferLength_huge r name w :
  ~ allocatable r ->
  pixelBufferLength 4 r name w =
    Panic ("image: New" +:+ name +:+ " Rectangle has huge or negative dimensions").
Proof.
  intros Hn. unfold pixelBufferLength, mul3NonNeg, allocatable in *.
  unfold max_int in *.
  destruct (Z.ltb_spec (Dx r) 0); [reflexivity|].
  destruct (Z.ltb_spec (Dy r) 0); [reflexivity|]. simpl.
  destruct (Z.leb_spec (2 ^ 64) (4 * Dx r)); [reflexivity|].
  destruct (Z.leb_spec (2 ^ 64) (4 * Dx r * Dy r)); [reflexivity|].
  destruct (Z.ltb_spec (2 ^ 63 - 1) (4 * Dx r * Dy r)); [reflexivity|].
  exfalso. apply Hn. lia.
Qed.

Lemma pixelBufferLength_Panic r name w :
  Dx r < 0 \/ Dy r < 0 ->
  pixelBufferLength 4 r name w =
    Panic ("image: New" +:+ name +:+ " Rectangle has huge or negative dimensions").
Proof.
  intros H. unfold pixelBufferLength, mul3NonNeg.
  destruct (Z.ltb_spec (Dx r) 0), (Z.ltb_spec (Dy r) 0); simpl; try reflexivity; lia.
Qed.

Lemma image_NewRGBA_Ok r w :
  allocatable r ->
  image_NewRGBA r w =
    Ok (length (heap w),
        mkWorld (heap w ++ [ObjRGBA r (fun _ _ => mkRGBA 0 0 0 0)])
          (entropy w) (files w) (refused w) (rand_aborts w)).
Proof.
  intros Ha. unfold image_NewRGBA.
  now rewrite (bind_Ok _ _ _ _ _ (pixelBufferLength_Ok r _ w Ha)).
Qed.

Lemma image_NewNRGBA_Ok r w :
  allocatable r ->
  image_NewNRGBA r w =
    Ok (length (heap w),
        mkWorld (heap w ++ [ObjNRGBA r (fun _ _ => mkNRGBA 0 0 0 0)])
          (entropy w) (files w) (refused w) (rand_aborts w)).
Proof.
  intros Ha. unfold image_NewNRGBA.
  now rewrite (bind_Ok _ _ _ _ _ (pixelBufferLength_Ok r _ w Ha)).
Qed.

(** ** The monochrome model *)

Lemma monoModel_tag c : monoModel c = ColorPixel (tag c).
Proof.
  unfold tag, monoModel. destruct c; try reflexivity.
  all: destruct (Color_RGBA _) as [[[r g] b] a]; reflexivity.
Qed.

Lemma tag_ColorPixel p : tag (ColorPixel p) = p.
Proof. reflexivity. Qed.

(** A tag survives being stored in an [image.RGBA] and read back. *)
Lemma tag_tag_RGBA p : tag (ColorRGBA (tag_RGBA p)) = p.
Proof. destruct p; vm_compute; reflexivity. Qed.

Lemma assert_Pixel_mono c w :
  assert_Pixel (MonochromeModel_Convert c) w = Ok (tag c, w).
Proof. unfold MonochromeModel_Convert. rewrite monoModel_tag. reflexivity. Qed.

(** ** encBW *)

Lemma encBW_spec img k out w so ko pix0 :
  heap w !! img = Some so -> heap w !! k = Some ko ->
  heap w !! out = Some (ObjRGBA (obj_Bounds ko) pix0) ->
  k <> out ->
  allocatable (obj_Bounds ko) ->
  exists w' pix',
    encBW img k out w = Ok (tt, w') /\
    files w' = files w /\
    (refused w' = refused w /\ rand_aborts w' = rand_aborts w) /\
    entropy w' = entropy w /\
    length (heap w') = S (length (heap w)) /\
    (forall l, (l < length (heap w))%nat -> l <> out ->
               heap w' !! l = heap w !! l) /\
    heap w' !! out = Some (ObjRGBA (obj_Bounds ko) pix') /\
    forall x y, pix' x y =
      if Point_In x y (obj_Bounds ko)
      then tag_RGBA (bw_result (tag (obj_At so x y)) (tag (obj_At ko x y)))
      else pix0 x y.
Proof.
  intros Hs Hk Ho Hko Hal.
  set (b := obj_Bounds ko) in *.
  pose proof (lookup_lt_Some _ _ _ Hs) as Ls.
  pose proof (lookup_lt_Some _ _ _ Hk) as Lk.
  pose proof (lookup_lt_Some _ _ _ Ho) as Lo.
  set (mono := length (heap w)).
  set (wa := mkWorld (heap w ++ [ObjRGBA b (fun _ _ => mkRGBA 0 0 0 0)])
               (entropy w) (files w) (refused w) (rand_aborts w)).
  assert (Hsa : heap wa !! img = Some so) by (simpl; now rewrite lookup_app_l).
  assert (Hka : heap wa !! k = Some ko) by (simpl; now rewrite lookup_app_l).
  assert (Hoa : heap wa !! out = Some (ObjRGBA b pix0))
    by (simpl; now rewrite lookup_app_l).
  assert (Hma : heap wa !! mono = Some (ObjRGBA b (fun _ _ => mkRGBA 0 0 0 0)))
    by (simpl; now apply list_lookup_middle).
  (* first pass *)
  destruct (fill_spec ObjRGBA mono b (X (Min b)) (X (Max b)) (Y (Min b)) (Y (Max b))
              0%nat (fun _ x y => tag_RGBA (tag (obj_At so x y)))
              (fun y x =>
                 c <- At img x y ;;
                 let p := MonochromeModel_Convert c in
                 RGBA_Set mono x y p)%go
              wa) with (pix0 := fun (_ _ : Z) => mkRGBA 0 0 0 0)
    as (w1 & pix1 & Hrun1 & Hf1 & Hr1 & He1 & Ha1 & Hp1 & Hpix1).
  { intros x y w2 pix Hy Hx Hp2 [_ Hoff] _ _.
    rewrite (bind_Ok _ _ _ _ _ (At_Ok img x y w2 so
               ltac:(rewrite Hoff by (unfold mono; lia); exact Hsa))).
    rewrite (RGBA_Set_Ok _ _ _ _ _ _ _ Hp2 (Point_In_range _ _ _ Hx Hy)).
    unfold MonochromeModel_Convert. rewrite monoModel_tag. reflexivity. }
  { exact Hma. }
  destruct Ha1 as [Hlen1 Hoff1].
  assert (Hs1 : heap w1 !! img = Some so)
    by (rewrite Hoff1 by (unfold mono; lia); exact Hsa).
  assert (Hk1 : heap w1 !! k = Some ko)
    by (rewrite Hoff1 by (unfold mono; lia); exact Hka).
  assert (Ho1 : heap w1 !! out = Some (ObjRGBA b pix0))
    by (rewrite Hoff1 by (unfold mono; lia); exact Hoa).
  (* second pass *)
  destruct (fill_spec ObjRGBA out b (X (Min b)) (X (Max b)) (Y (Min b)) (Y (Max b))
              0%nat (fun _ x y =>
                       tag_RGBA (bw_result (tag (obj_At so x y)) (tag (obj_At ko x y))))
              (fun y x =>
                 c <- At mono x y ;;
                 origPixel <- assert_Pixel (MonochromeModel_Convert c) ;;
                 kc <- At k x y ;;
                 keyPixel <- assert_Pixel (MonochromeModel_Convert kc) ;;
                 let result :=
                   if negb (Bool.eqb origPixel keyPixel) then Black else White in
                 RGBA_Set out x y (ColorPixel result))%go
              w1) with (pix0 := pix0)
    as (w2 & pix2 & Hrun2 & Hf2 & Hr2 & He2 & Ha2 & Hp2 & Hpix2).
  { intros x y w3 pix Hy Hx Hp3 [_ Hoff] _ _.
    assert (Hm3 : heap w3 !! mono = Some (ObjRGBA b pix1))
      by (rewrite Hoff by (unfold mono; lia); exact Hp1).
    rewrite (bind_Ok _ _ _ _ _ (At_Ok mono x y w3 _ Hm3)).
    rewrite (bind_Ok _ _ _ _ _ (assert_Pixel_mono _ w3)).
    rewrite (bind_Ok _ _ _ _ _ (At_Ok k x y w3 ko
               ltac:(rewrite Hoff by assumption; exact Hk1))).
    rewrite (bind_Ok _ _ _ _ _ (assert_Pixel_mono _ w3)).
    rewrite (RGBA_Set_Ok _ _ _ _ _ _ _ Hp3 (Point_In_range _ _ _ Hx Hy)).
    simpl obj_At. rewrite (Point_In_range _ _ _ Hx Hy), Hpix1.
    unfold fill_range.
    replace ((X (Min b) <=? x) && (x <? X (Max b)) && (Y (Min b) <=? y) &&
             (y <? Y (Max b))) with true by (symmetry; zbool).
    rewrite tag_tag_RGBA. reflexivity. }
  { exact Ho1. }
  destruct Ha2 as [Hlen2 Hoff2].
  exists w2, pix2. unfold encBW.
  rewrite (bind_Ok _ _ _ _ _ (Bounds_Ok k w ko Hk)). fold b.
  rewrite (bind_Ok _ _ _ _ _ (image_NewRGBA_Ok b w Hal)).
  fold mono. fold wa.
  rewrite (bind_Ok _ _ _ _ _ Hrun1).
  destruct Hr1 as [Hr1 Hab1]. destruct Hr2 as [Hr2 Hab2].
  repeat split.
  - exact Hrun2.
  - now rewrite Hf2, Hf1.
  - now rewrite Hr2, Hr1.
  - now rewrite Hab2, Hab1.
  - rewrite He2, He1. reflexivity.
  - rewrite Hlen2, Hlen1. simpl. rewrite length_app. simpl. lia.
  - intros l Hl Hlo. rewrite Hoff2 by assumption.
    rewrite Hoff1 by (unfold mono; lia). simpl. now rewrite lookup_app_l.
  - exact Hp2.
  - exact Hpix2.
Qed.

(** ** Resize *)

Lemma Resize_spec interp width height img w o :
  heap w !! img = Some o ->
  exists img' w',
    Resize width height img interp w = Ok (img', w') /\
    heap w' !! img' = Some (resized interp width height o) /\
    ((img' = img /\ w' = w) \/
     (img' = length (heap w) /\
      w' = mkWorld (heap w ++ [resized interp width height o])
             (entropy w) (files w) (refused w) (rand_aborts w))).
Proof.
  intros H. unfold Resize, resized.
  assert (Hl : load img w = Ok (o, w)) by (unfold load; now rewrite H).
  rewrite (bind_Ok _ _ _ _ _ Hl).
  assert (Hfresh :
    exists img' w',
      match interp width height o with
      | Some o' => alloc o'
      | None => ret img
      end w = Ok (img', w') /\
      heap w' !! img' = Some (default o (interp width height o)) /\
      ((img' = img /\ w' = w) \/
       (img' = length (heap w) /\
        w' = mkWorld (heap w ++ [default o (interp width height o)])
               (entropy w) (files w) (refused w) (rand_aborts w)))).
  { destruct (interp width height o) as [o'|]; simpl.
    - eexists _, _. split; [reflexivity|]. split; [|right; split; reflexivity].
      simpl. now apply list_lookup_middle.
    - exists img, w. split; [reflexivity|]. split; [assumption|]. now left. }
  destruct ((width =? 0) || (height =? 0)); [exact Hfresh|].
  destruct ((width =? Dx (obj_Bounds o)) && (height =? Dy (obj_Bounds o))).
  { exists img, w. split; [reflexivity|]. split; [assumption|]. now left. }
  destruct ((Dx (obj_Bounds o) <=? 0) || (Dy (obj_Bounds o) <=? 0)).
  { exists img, w. split; [reflexivity|]. split; [assumption|]. now left. }
  exact Hfresh.
Qed.

(** ** Encrypt *)

Lemma extends_from_lookup (w w' : World) :
  (length (heap w) <= length (heap w'))%nat ->
  (forall l, (l < length (heap w))%nat -> heap w' !! l = heap w !! l) ->
  entropy w' = entropy w -> files w' = files w -> refused w' = refused w ->
  rand_aborts w' = rand_aborts w ->
  extends w w'.
Proof.
  intros Hlen Hl He Hf Hr Hab. split; [|auto].
  exists (drop (length (heap w)) (heap w')).
  rewrite <- (take_drop (length (heap w)) (heap w')) at 1. f_equal.
  apply list_eq. intros i.
  destruct (decide (i < length (heap w))%nat) as [Hi|Hi].
  - rewrite lookup_take_lt by assumption. now apply Hl.
  - rewrite lookup_take_ge by lia. symmetry. apply lookup_ge_None. lia.
Qed.

Lemma extends_lookup w w' l o :
  extends w w' -> heap w !! l = Some o -> heap w' !! l = Some o.
Proof.
  intros [[new Hn] _] H. rewrite Hn. rewrite lookup_app_l; [assumption|].
  eapply lookup_lt_Some; eassumption.
Qed.

Section TransformSpec.

Variable Lanczos3 : InterpolationFunction.

Lemma Encrypt_spec img keyImg rgb w so ko :
  heap w !! img = Some so -> heap w !! keyImg = Some ko ->
  allocatable (obj_Bounds ko) ->
  exists w' pix,
    Encrypt Lanczos3 img keyImg rgb w = Ok (length (heap w), w') /\
    extends w w' /\
    heap w' !! length (heap w) = Some (ObjRGBA (obj_Bounds ko) pix) /\
    forall x y, pix x y =
      if Point_In x y (obj_Bounds ko)
      then transform_pixel rgb
             (resized Lanczos3 (Dx (obj_Bounds ko)) (Dy (obj_Bounds ko)) so)
             ko x y
      else mkRGBA 0 0 0 0.
Proof.
  intros Hs Hk Hal.
  set (b := obj_Bounds ko) in *.
  set (ro := resized Lanczos3 (Dx b) (Dy b) so).
  pose proof (lookup_lt_Some _ _ _ Hs) as Ls.
  pose proof (lookup_lt_Some _ _ _ Hk) as Lk.
  set (out := length (heap w)).
  set (wa := mkWorld (heap w ++ [ObjRGBA b (fun _ _ => mkRGBA 0 0 0 0)])
               (entropy w) (files w) (refused w) (rand_aborts w)).
  assert (Hsa : heap wa !! img = Some so) by (simpl; now rewrite lookup_app_l).
  destruct (Resize_spec Lanczos3 (Dx b) (Dy b) img wa so Hsa)
    as (img' & wr & Hres & Hro & Hcase).
  fold ro in Hro, Hcase.
  assert (Hwr : (length (heap wa) <= length (heap wr))%nat /\
                (forall l, (l < length (heap wa))%nat ->
                           heap wr !! l = heap wa !! l) /\
                entropy wr = entropy w /\ files wr = files w /\
                refused wr = refused w /\ rand_aborts wr = rand_aborts w /\
                img' <> out).
  { destruct Hcase as [[-> ->]|[-> ->]]; simpl.
    - repeat split; try lia; unfold out; lia.
    - repeat split; try (rewrite ?length_app; simpl; unfold out; lia).
      intros l Hl. rewrite lookup_app_l; [reflexivity|].
      rewrite length_app in Hl. simpl in Hl. rewrite length_app. simpl. lia. }
  destruct Hwr as (Hlen & Hold & Her & Hfr & Hrr & Habr & Hne).
  assert (Hkr : heap wr !! keyImg = Some ko).
  { rewrite Hold by (simpl; rewrite length_app; simpl; lia).
    simpl. now rewrite lookup_app_l. }
  assert (Hor : heap wr !! out = Some (ObjRGBA b (fun _ _ => mkRGBA 0 0 0 0))).
  { rewrite Hold by (simpl; rewrite length_app; simpl; unfold out; lia).
    simpl. now apply list_lookup_middle. }
  assert (Hkne : keyImg <> out) by (unfold out; lia).
  assert (Hpre : exists w' pix,
    (if rgb then encRGB img' keyImg out else encBW img' keyImg out) wr = Ok (tt, w') /\
    files w' = files wr /\
    (refused w' = refused wr /\ rand_aborts w' = rand_aborts wr) /\
    entropy w' = entropy wr /\
    (length (heap wr) <= length (heap w'))%nat /\
    (forall l, (l < length (heap wr))%nat -> l <> out -> heap w' !! l = heap wr !! l) /\
    heap w' !! out = Some (ObjRGBA b pix) /\
    forall x y, pix x y =
      if Point_In x y b then transform_pixel rgb ro ko x y else mkRGBA 0 0 0 0).
  { destruct rgb.
    - destruct (encRGB_spec img' keyImg out wr ro ko _ Hro Hkr Hor Hne Hkne)
        as (w' & pix & Hrun & Hf & [Hr Hab] & He & [Hl Ho] & Hp & Hpix).
      exists w', pix. repeat split; try assumption.
      + lia.
      + intros l _ Hlo. now apply Ho.
    - destruct (encBW_spec img' keyImg out wr ro ko _ Hro Hkr Hor Hkne Hal)
        as (w' & pix & Hrun & Hf & [Hr Hab] & He & Hl & Ho & Hp & Hpix).
      exists w', pix. repeat split; try assumption. lia. }
  destruct Hpre as (w' & pix & Hrun & Hf & [Hr Hab] & He & Hl & Ho & Hp & Hpix).
  exists w', pix. split; [|split; [|split]].
  - unfold Encrypt.
    rewrite (bind_Ok _ _ _ _ _ (Bounds_Ok keyImg w ko Hk)).
    rewrite (bind_Ok _ _ _ _ _ (Bounds_Ok keyImg w ko Hk)). fold b.
    rewrite (bind_Ok _ _ _ _ _ (image_NewRGBA_Ok b w Hal)).
    fold out. fold wa.
    rewrite (bind_Ok _ _ _ _ _ Hres).
    rewrite (bind_Ok _ _ _ _ _ Hrun). reflexivity.
  - apply extends_from_lookup.
    + simpl in Hlen. rewrite length_app in Hlen. simpl in Hlen. lia.
    + intros l Hlt. rewrite Ho by (simpl in Hlen; rewrite length_app in Hlen;
                                   simpl in Hlen; unfold out; lia).
      rewrite Hold by (simpl; rewrite length_app; simpl; lia).
      simpl. now rewrite lookup_app_l.
    + now rewrite He.
    + now rewrite Hf.
    + now rewrite Hr.
    + now rewrite Hab.
  - exact Hp.
  - exact Hpix.
Qed.

End TransformSpec.

(** ** Key generation *)

Lemma image_Rect_dims x1 y1 :
  0 <= Dx (image_Rect 0 0 x1 y1) /\ 0 <= Dy (image_Rect 0 0 x1 y1).
Proof.
  unfold image_Rect, Dx, Dy.
  destruct (Z.ltb_spec x1 0), (Z.ltb_spec y1 0); simpl; lia.
Qed.

Lemma image_Rect_pos x1 y1 :
  0 <= x1 -> 0 <= y1 ->
  image_Rect 0 0 x1 y1 = mkRectangle (mkPoint 0 0) (mkPoint x1 y1).
Proof.
  intros Hx Hy. unfold image_Rect.
  destruct (Z.ltb_spec x1 0), (Z.ltb_spec y1 0); try lia. reflexivity.
Qed.

Lemma byte_at_drop e n i : byte_at (drop n e) i = byte_at e (n + i).
Proof.
  unfold byte_at. rewrite !nth_lookup, lookup_drop. reflexivity.
Qed.

Lemma reads_pass_at w0 w1 m total i :
  reads_pass w0 (m * total) ->
  rand_aborts w1 = rand_aborts w0 ->
  entropy w1 = drop (m * i) (entropy w0) ->
  (i < total)%nat ->
  reads_pass w1 m.
Proof.
  intros [H|H] Hab He Hi; [left; congruence|].
  right. rewrite He, length_drop. nia.
Qed.

Lemma fill_idx_lt width height x y :
  0 <= x < width -> 0 <= y < height ->
  (fill_idx 0 width 0 y x < Z.to_nat (height * Z.max 0 width))%nat.
Proof.
  intros Hx Hy. unfold fill_idx. rewrite !Z.sub_0_r.
  replace (Z.max 0 width) with width by lia. nia.
Qed.

Lemma rand_Read_1 w :
  reads_pass w 1 ->
  rand_Read [0] w =
    Ok (([byte_at (entropy w) 0], Z.of_nat (length (take 1 (entropy w))),
         negb (Nat.eqb (length (take 1 (entropy w))) 1)),
        mkWorld (heap w) (drop 1 (entropy w)) (files w) (refused w) (rand_aborts w)).
Proof.
  intros Hp. unfold rand_Read, byte_at.
  destruct Hp as [Hp|Hp].
  - rewrite Hp. destruct (entropy w) as [|a e]; reflexivity.
  - destruct (entropy w) as [|a e]; [simpl in Hp; lia|].
    simpl. rewrite andb_false_r. reflexivity.
Qed.

Lemma rand_Read_3 w :
  reads_pass w 3 ->
  rand_Read [0; 0; 0] w =
    Ok (([byte_at (entropy w) 0; byte_at (entropy w) 1; byte_at (entropy w) 2],
         Z.of_nat (length (take 3 (entropy w))),
         negb (Nat.eqb (length (take 3 (entropy w))) 3)),
        mkWorld (heap w) (drop 3 (entropy w)) (files w) (refused w) (rand_aborts w)).
Proof.
  intros Hp. unfold rand_Read, byte_at.
  destruct Hp as [Hp|Hp].
  - rewrite Hp. destruct (entropy w) as [|a [|b [|c e]]]; reflexivity.
  - destruct (entropy w) as [|a [|b [|c e]]]; try (simpl in Hp; lia).
    simpl. rewrite andb_false_r. reflexivity.
Qed.

Lemma snoc_from_agrees p (w0 : World) h h' o0 o' :
  heap w0 = h ++ [o0] -> p = length h ->
  agrees_off p w0 h' -> h' !! p = Some o' -> h' = h ++ [o'].
Proof.
  intros Hw -> [Hlen Hoff] Hp.
  rewrite Hw in Hlen, Hoff. rewrite length_app in Hlen. simpl in Hlen.
  apply list_eq. intros i.
  destruct (decide (i = length h)) as [->|Hi].
  - rewrite Hp. symmetry. now apply list_lookup_middle.
  - rewrite Hoff by assumption.
    destruct (decide (i < length h)%nat).
    + now rewrite !lookup_app_l.
    + rewrite !lookup_ge_None_2; [reflexivity| |]; rewrite length_app; simpl; lia.
Qed.

Lemma in_key_range width height x y :
  fill_range 0 width 0 height x y = in_key width height x y.
Proof. reflexivity. Qed.

Lemma keyGenBW_spec width height w :
  allocatable (image_Rect 0 0 width height) ->
  reads_pass w (1 * Z.to_nat (height * Z.max 0 width)) ->
  exists w' pix,
    keyGenBW width height w = Ok (length (heap w), w') /\
    heap w' = heap w ++ [ObjNRGBA (image_Rect 0 0 width height) pix] /\
    files w' = files w /\ refused w' = refused w /\
    entropy w' = drop (Z.to_nat (height * Z.max 0 width)) (entropy w) /\
    forall x y, pix x y =
      if in_key width height x y
      then bw_key_pixel (byte_at (entropy w) (Z.to_nat (y * width + x)))
      else mkNRGBA 0 0 0 0.
Proof.
  intros Hal Hreads.
  set (r := image_Rect 0 0 width height) in *.
  set (k := length (heap w)).
  set (wa := mkWorld (heap w ++ [ObjNRGBA r (fun _ _ => mkNRGBA 0 0 0 0)])
               (entropy w) (files w) (refused w) (rand_aborts w)).
  destruct (fill_spec ObjNRGBA k r 0 width 0 height 1%nat
              (fun e _ _ => bw_key_pixel (byte_at e 0))
              (fun y x =>
                 res <- rand_Read [0] ;;
                 let '(b, _, _) := res in
                 if Z.land (nth 0 b 0) 1 =? 0
                 then NRGBA_Set k x y (ColorPixel Black)
                 else NRGBA_Set k x y (ColorPixel White))%go
              wa) with (pix0 := fun (_ _ : Z) => mkNRGBA 0 0 0 0)
    as (w' & pix & Hrun & Hf & [Hr Hab] & He & Ha & Hp & Hpix).
  - intros x y w1 pix Hy Hx Hp1 _ Hab1 He1.
    rewrite (bind_Ok _ _ _ _ _ (rand_Read_1 w1
               (reads_pass_at wa w1 _ _ _ Hreads Hab1 He1
                  (fill_idx_lt width height x y Hx Hy)))). cbn [nth].
    assert (Hin : Point_In x y r = true).
    { apply Point_In_range; unfold r; rewrite image_Rect_pos by lia; simpl; lia. }
    unfold bw_key_pixel.
    destruct (Z.land (byte_at (entropy w1) 0) 1 =? 0);
      now rewrite (NRGBA_Set_Ok k x y _
                     (mkWorld (heap w1) (drop 1 (entropy w1)) (files w1) (refused w1) (rand_aborts w1))
                     r pix Hp1 Hin).
  - simpl. now apply list_lookup_middle.
  - exists w', pix. split; [|split; [|split; [|split; [|split]]]].
    + unfold keyGenBW. fold r.
      rewrite (bind_Ok _ _ _ _ _ (image_NewNRGBA_Ok r w Hal)).
      fold k. fold wa. now rewrite (bind_Ok _ _ _ _ _ Hrun).
    + eapply snoc_from_agrees; try eassumption; reflexivity.
    + exact Hf.
    + exact Hr.
    + rewrite He. simpl entropy. f_equal.
      rewrite !Z.sub_0_r. lia.
    + intros x y. rewrite Hpix, in_key_range.
      unfold in_key.
      destruct (Z.leb_spec 0 x), (Z.ltb_spec x width), (Z.leb_spec 0 y),
        (Z.ltb_spec y height); simpl; try reflexivity.
      rewrite byte_at_drop. simpl entropy. f_equal. f_equal.
      unfold fill_idx. rewrite !Z.sub_0_r.
      replace (Z.max 0 width) with width by lia. lia.
Qed.

Lemma keyGenRGB_spec width height w :
  allocatable (image_Rect 0 0 width height) ->
  reads_pass w (3 * Z.to_nat (height * Z.max 0 width)) ->
  exists w' pix,
    keyGenRGB width height w = Ok (length (heap w), w') /\
    heap w' = heap w ++ [ObjNRGBA (image_Rect 0 0 width height) pix] /\
    files w' = files w /\ refused w' = refused w /\
    entropy w' = drop (3 * Z.to_nat (height * Z.max 0 width)) (entropy w) /\
    forall x y, pix x y =
      if in_key width height x y
      then
        let i := (3 * Z.to_nat (y * width + x))%nat in
        rgb_key_pixel (byte_at (entropy w) i) (byte_at (entropy w) (i + 1))
          (byte_at (entropy w) (i + 2))
      else mkNRGBA 0 0 0 0.
Proof.
  intros Hal Hreads.
  set (r := image_Rect 0 0 width height) in *.
  set (k := length (heap w)).
  set (wa := mkWorld (heap w ++ [ObjNRGBA r (fun _ _ => mkNRGBA 0 0 0 0)])
               (entropy w) (files w) (refused w) (rand_aborts w)).
  destruct (fill_spec ObjNRGBA k r 0 width 0 height 3%nat
              (fun e _ _ => rgb_key_pixel (byte_at e 0) (byte_at e 1) (byte_at e 2))
              (fun y x =>
                 res <- rand_Read [0; 0; 0] ;;
                 let '(pix, _, _) := res in
                 NRGBA_Set k x y
                   (ColorRGBA (mkRGBA (nth 0 pix 0) (nth 1 pix 0) (nth 2 pix 0) 255)))%go
              wa) with (pix0 := fun (_ _ : Z) => mkNRGBA 0 0 0 0)
    as (w' & pix & Hrun & Hf & [Hr Hab] & He & Ha & Hp & Hpix).
  - intros x y w1 pix Hy Hx Hp1 _ Hab1 He1.
    rewrite (bind_Ok _ _ _ _ _ (rand_Read_3 w1
               (reads_pass_at wa w1 _ _ _ Hreads Hab1 He1
                  (fill_idx_lt width height x y Hx Hy)))). cbn [nth].
    assert (Hin : Point_In x y r = true).
    { apply Point_In_range; unfold r; rewrite image_Rect_pos by lia; simpl; lia. }
    now rewrite (NRGBA_Set_Ok k x y _
                   (mkWorld (heap w1) (drop 3 (entropy w1)) (files w1) (refused w1) (rand_aborts w1))
                   r pix Hp1 Hin).
  - simpl. now apply list_lookup_middle.
  - exists w', pix. split; [|split; [|split; [|split; [|split]]]].
    + unfold keyGenRGB. fold r.
      rewrite (bind_Ok _ _ _ _ _ (image_NewNRGBA_Ok r w Hal)).
      fold k. fold wa. now rewrite (bind_Ok _ _ _ _ _ Hrun).
    + eapply snoc_from_agrees; try eassumption; reflexivity.
    + exact Hf.
    + exact Hr.
    + rewrite He. simpl entropy. f_equal.
      rewrite !Z.sub_0_r. reflexivity.
    + intros x y. rewrite Hpix, in_key_range.
      unfold in_key.
      destruct (Z.leb_spec 0 x), (Z.ltb_spec x width), (Z.leb_spec 0 y),
        (Z.ltb_spec y height); simpl; try reflexivity.
      rewrite !byte_at_drop. simpl entropy.
      assert (fill_idx 0 width 0 y x = Z.to_nat (y * width + x)) as ->.
      { unfold fill_idx. rewrite !Z.sub_0_r.
        now replace (Z.max 0 width) with width by lia. }
      rewrite Nat.add_0_r. reflexivity.
Qed.

(** ** Bytes *)

Lemma byte_cases (P : Z -> bool) :
  forallb P (seqZ 0 256) = true -> forall v, 0 <= v < 256 -> P v = true.
Proof.
  intros H v Hv. rewrite forallb_forall in H. apply H.
  apply list_elem_of_In, elem_of_seqZ. lia.
Qed.

Lemma chan8_range v : 0 <= chan8 v < 256.
Proof. unfold chan8, uint8. apply Z.mod_pos_bound. reflexivity. Qed.

Lemma chan8_spread8 v : 0 <= v < 256 -> chan8 (spread8 v) = v.
Proof.
  intros Hv. apply Z.eqb_eq.
  apply (byte_cases (fun v => chan8 (spread8 v) =? v)); [|assumption].
  vm_compute. reflexivity.
Qed.

Lemma lxor_byte a b : 0 <= a < 256 -> 0 <= b < 256 -> 0 <= Z.lxor a b < 256.
Proof.
  intros Ha Hb.
  assert (H : (0 <=? Z.lxor a b) && (Z.lxor a b <? 256) = true).
  { revert b Hb.
    apply (byte_cases (fun a => forallb (fun b => (0 <=? Z.lxor a b) && (Z.lxor a b <? 256))
                                  (seqZ 0 256))) in Ha; [|vm_compute; reflexivity].
    intros b Hb.
    apply (byte_cases _ Ha b Hb). }
  apply andb_true_iff in H. destruct H as [H1 H2].
  apply Z.leb_le in H1. apply Z.ltb_lt in H2. lia.
Qed.

Lemma lxor_cancel a k : Z.lxor (Z.lxor a k) k = a.
Proof. now rewrite Z.lxor_assoc, Z.lxor_nilpotent, Z.lxor_0_r. Qed.

Lemma land_1_testbit b : (Z.land b 1 =? 0) = negb (Z.testbit b 0).
Proof.
  change 1 with (Z.ones 1). rewrite Z.land_ones by lia.
  change (2 ^ 1) with 2. rewrite <- Z.bit0_mod.
  destruct (Z.testbit b 0); reflexivity.
Qed.

(** The channels [encRGB] stores are read back unchanged. *)
Lemma rgb8_xor_pixel c kc :
  rgb8 (ColorRGBA (xor_pixel c kc)) =
    let '(r, g, b) := rgb8 c in
    let '(kr, kg, kb) := rgb8 kc in
    (Z.lxor r kr, Z.lxor g kg, Z.lxor b kb).
Proof.
  unfold xor_pixel, rgb8.
  destruct (Color_RGBA c) as [[[r g] b] a].
  destruct (Color_RGBA kc) as [[[kr kg] kb] ka].
  simpl. rewrite !chan8_spread8; [reflexivity| | |];
    apply lxor_byte; apply chan8_range.
Qed.

Lemma xor_pixel_involutive c kc :
  rgb8 (ColorRGBA (xor_pixel (ColorRGBA (xor_pixel c kc)) kc)) = rgb8 c.
Proof.
  rewrite rgb8_xor_pixel, rgb8_xor_pixel.
  destruct (rgb8 c) as [[r g] b]. destruct (rgb8 kc) as [[kr kg] kb].
  now rewrite !lxor_cancel.
Qed.

(** The resampler is not consulted when the source has the dimensions asked
    for and these are positive. *)
Lemma resized_same interp o width height :
  0 < width -> 0 < height ->
  Dx (obj_Bounds o) = width -> Dy (obj_Bounds o) = height ->
  resized interp width height o = o.
Proof.
  intros Hw Hh Hx Hy. unfold resized.
  destruct (Z.eqb_spec width 0); [lia|].
  destruct (Z.eqb_spec height 0); [lia|]. simpl.
  rewrite Hx, Hy, !Z.eqb_refl. reflexivity.
Qed.

Lemma Point_In_dims x y r : Point_In x y r = true -> 0 < Dx r /\ 0 < Dy r.
Proof.
  unfold Point_In, Dx, Dy. intros H. zhyp. lia.
Qed.

(** * The claims *)

(** C4. The monochrome reduction is the integer luminance rule: for a color
    whose 16-bit channels are [r], [g], [b], the tag is Black exactly when
    [Y = (299 r + 587 g + 114 b + 500) / 1000] is below [0x8000], and White
    otherwise; pure black is Black, pure white is White, and every color has
    exactly one tag. *)
Theorem C4_luminance_rule c r g b a :
  Color_RGBA c = (r, g, b, a) ->
  0 <= r <= 0xffff -> 0 <= g <= 0xffff -> 0 <= b <= 0xffff ->
  let Y := (299 * r + 587 * g + 114 * b + 500) / 1000 in
  (Y < 0x8000 <-> monoModel c = ColorPixel Black) /\
  (0x8000 <= Y <-> monoModel c = ColorPixel White) /\
  monoModel (ColorRGBA (mkRGBA 0 0 0 255)) = ColorPixel Black /\
  monoModel (ColorRGBA (mkRGBA 255 255 255 255)) = ColorPixel White /\
  (forall c', exists! p, monoModel c' = ColorPixel p).
Proof.
  intros Hc Hr Hg Hb Y.
  assert (Hm : monoModel c = ColorPixel (Y <? 0x8000)).
  { destruct c as [p| | |].
    - destruct p; simpl in Hc; injection Hc as <- <- <- <-; reflexivity.
    - unfold monoModel. rewrite Hc. unfold uint32, uint16.
      rewrite (Z.mod_small (299 * r + 587 * g + 114 * b + 500)) by lia.
      fold Y. rewrite (Z.mod_small Y); [reflexivity|].
      unfold Y. split; [apply Z.div_pos; lia|].
      apply Z.div_lt_upper_bound; lia.
    - unfold monoModel. rewrite Hc. unfold uint32, uint16.
      rewrite (Z.mod_small (299 * r + 587 * g + 114 * b + 500)) by lia.
      fold Y. rewrite (Z.mod_small Y); [reflexivity|].
      unfold Y. split; [apply Z.div_pos; lia|].
      apply Z.div_lt_upper_bound; lia.
    - unfold monoModel. rewrite Hc. unfold uint32, uint16.
      rewrite (Z.mod_small (299 * r + 587 * g + 114 * b + 500)) by lia.
      fold Y. rewrite (Z.mod_small Y); [reflexivity|].
      unfold Y. split; [apply Z.div_pos; lia|].
      apply Z.div_lt_upper_bound; lia. }
  rewrite Hm. unfold Black, White.
  split; [|split; [|split; [|split]]].
  - destruct (Z.ltb_spec Y 0x8000); split; intros; try reflexivity;
      try lia; discriminate.
  - destruct (Z.ltb_spec Y 0x8000); split; intros; try reflexivity;
      try lia; discriminate.
  - vm_compute. reflexivity.
  - vm_compute. reflexivity.
  - intros c'. exists (tag c'). split; [apply monoModel_tag|].
    intros p Hp. rewrite monoModel_tag in Hp. congruence.
Qed.

Lemma C4_luminance_rule_witness :
  let Y := (299 * 32896 + 587 * 32896 + 114 * 32896 + 500) / 1000 in
  (Y < 0x8000 <-> monoModel mid_gray = ColorPixel Black) /\
  (0x8000 <= Y <-> monoModel mid_gray = ColorPixel White) /\
  monoModel (ColorRGBA (mkRGBA 0 0 0 255)) = ColorPixel Black /\
  monoModel (ColorRGBA (mkRGBA 255 255 255 255)) = ColorPixel White /\
  (forall c', exists! p, monoModel c' = ColorPixel p).
Proof.
  apply (C4_luminance_rule mid_gray 32896 32896 32896 65535);
    [reflexivity | lia | lia | lia].
Defined.

Section TransformClaims.

Variable Lanczos3 : InterpolationFunction.

(** C1, as the code has it.  [Decrypt] is the same operation as
    [Encrypt], and in RGB mode the transform is an involution for a source
    that has the bounds of the key, not only its dimensions: encrypting
    twice with the key [K] gives an image with the bounds of the source [R]
    that has, at every coordinate of these bounds, the 8-bit red, green and
    blue intensities of [R]. *)
Theorem C1_decrypt_is_encrypt_rgb_involution (R K : nat) (w : World)
    (ro ko : ImgObj) :
  heap w !! R = Some ro -> heap w !! K = Some ko ->
  allocatable (obj_Bounds ko) ->
  obj_Bounds ro = obj_Bounds ko ->
  (forall img keyImg rgb,
     Decrypt Lanczos3 img keyImg rgb = Encrypt Lanczos3 img keyImg rgb) /\
  exists c w1 d w2 od,
    Encrypt Lanczos3 R K true w = Ok (c, w1) /\
    Encrypt Lanczos3 c K true w1 = Ok (d, w2) /\
    heap w2 !! d = Some od /\
    obj_Bounds od = obj_Bounds ro /\
    forall x y, Point_In x y (obj_Bounds ro) = true ->
      rgb8 (obj_At od x y) = rgb8 (obj_At ro x y).
Proof.
  intros HR HK Hal Hb. split; [reflexivity|].
  destruct (Encrypt_spec Lanczos3 R K true w ro ko HR HK Hal)
    as (w1 & pix1 & Hrun1 & Hext1 & Hc & Hpix1).
  pose proof (extends_lookup _ _ _ _ Hext1 HK) as HK1.
  destruct (Encrypt_spec Lanczos3 _ K true w1 _ ko Hc HK1 Hal)
    as (w2 & pix2 & Hrun2 & Hext2 & Hd & Hpix2).
  eexists _, w1, _, w2, _.
  split; [exact Hrun1|]. split; [exact Hrun2|]. split; [exact Hd|].
  split; [simpl; congruence|].
  rewrite Hb. intros x y Hin.
  destruct (Point_In_dims _ _ _ Hin) as [Hpx Hpy].
  simpl obj_At. rewrite Hin, Hpix2, Hin. unfold transform_pixel.
  rewrite resized_same by (simpl; lia).
  simpl obj_At. rewrite Hin, Hpix1, Hin. unfold transform_pixel.
  rewrite resized_same by (rewrite ?Hb; lia).
  apply xor_pixel_involutive.
Qed.

(** C2. In RGB mode, at every coordinate of the key's bounds the output
    pixel has, in each of red, green and blue, the XOR of the 8-bit
    intensity of the resized source pixel with that of the key pixel; the
    source alpha plays no part and the output alpha is 255.  On the 2x2
    example the ciphertext is the channel-wise XOR, and encrypting it with
    the same key gives back the source. *)
Theorem C2_rgb_channel_xor (S K : nat) (w : World) (so ko : ImgObj) :
  heap w !! S = Some so -> heap w !! K = Some ko ->
  allocatable (obj_Bounds ko) ->
  (exists out w' oo,
     Encrypt Lanczos3 S K true w = Ok (out, w') /\
     heap w' !! out = Some oo /\
     forall x y, Point_In x y (obj_Bounds ko) = true ->
       let ro := resized Lanczos3 (Dx (obj_Bounds ko)) (Dy (obj_Bounds ko)) so in
       let '(r, g, b) := rgb8 (obj_At ro x y) in
       let '(kr, kg, kb) := rgb8 (obj_At ko x y) in
       obj_At oo x y =
         ColorRGBA (mkRGBA (Z.lxor r kr) (Z.lxor g kg) (Z.lxor b kb) 255)) /\
  result_image (Encrypt Lanczos3 1 0 true example_world) =
    Some (image_Rect 0 0 2 2,
          [ColorRGBA (mkRGBA 15 18 25 255); ColorRGBA (mkRGBA 32 59 54 255);
           ColorRGBA (mkRGBA 77 92 87 255); ColorRGBA (mkRGBA 106 97 104 255)]) /\
  result_image ((c <- Encrypt Lanczos3 1 0 true ;; Encrypt Lanczos3 c 0 true)
                  example_world) =
    Some (image_Rect 0 0 2 2, obj_pixels example_source).
Proof.
  intros HS HK Hal. split; [|split].
  - destruct (Encrypt_spec Lanczos3 S K true w so ko HS HK Hal)
      as (w1 & pix1 & Hrun1 & Hext1 & Hc & Hpix1).
    eexists _, w1, _. split; [exact Hrun1|]. split; [exact Hc|].
    intros x y Hin ro. simpl obj_At. rewrite Hin, Hpix1, Hin.
    unfold transform_pixel, xor_pixel. fold ro.
    destruct (rgb8 (obj_At ro x y)) as [[r g] b].
    destruct (rgb8 (obj_At ko x y)) as [[kr kg] kb]. reflexivity.
  - vm_compute. reflexivity.
  - vm_compute. reflexivity.
Qed.


(** C8. Whatever the dimensions of the source and whatever the mode, the
    image the transform returns has the bounds, hence the width and the
    height, of the key; the key object, like every object that existed
    before the call, is left as it was. *)
Theorem C8_output_geometry (S K : nat) (rgb : bool) (w : World)
    (so ko : ImgObj) :
  heap w !! S = Some so -> heap w !! K = Some ko ->
  allocatable (obj_Bounds ko) ->
  exists out w' oo,
    Encrypt Lanczos3 S K rgb w = Ok (out, w') /\
    heap w' !! out = Some oo /\
    obj_Bounds oo = obj_Bounds ko /\
    Dx (obj_Bounds oo) = Dx (obj_Bounds ko) /\
    Dy (obj_Bounds oo) = Dy (obj_Bounds ko) /\
    heap w' !! K = Some ko /\
    (forall l o, heap w !! l = Some o -> heap w' !! l = Some o).
Proof.
  intros HS HK Hal.
  destruct (Encrypt_spec Lanczos3 S K rgb w so ko HS HK Hal)
    as (w1 & pix1 & Hrun1 & Hext1 & Hc & Hpix1).
  eexists _, w1, _. split; [exact Hrun1|]. split; [exact Hc|].
  repeat split.
  - eapply extends_lookup; eassumption.
  - intros l o Hl. eapply extends_lookup; eassumption.
Qed.

End TransformClaims.

(** ** KeyGen *)

Lemma allocatable_square n :
  4 * n * n <= max_int -> allocatable (image_Rect 0 0 n n).
Proof.
  unfold allocatable, max_int, image_Rect, Dx, Dy. intros H.
  destruct (Z.ltb_spec n 0); simpl; repeat split; nia.
Qed.

Lemma not_allocatable_square n :
  max_int < 4 * n * n -> ~ allocatable (image_Rect 0 0 n n).
Proof.
  unfold allocatable, max_int, image_Rect, Dx, Dy. intros H.
  destruct (Z.ltb_spec n 0); simpl; intros (H1 & H2 & H3 & H4); nia.
Qed.

Lemma KeyGen_spec n rgb w :
  4 * n * n <= max_int ->
  reads_pass w (bytes_per_pixel rgb * Z.to_nat (n * Z.max 0 n)) ->
  exists w' pix,
    KeyGen n rgb w = Ok (length (heap w), w') /\
    heap w' = heap w ++ [ObjNRGBA (image_Rect 0 0 n n) pix] /\
    files w' = files w /\ refused w' = refused w /\
    entropy w' =
      drop (bytes_per_pixel rgb * Z.to_nat (n * Z.max 0 n)) (entropy w) /\
    forall x y, pix x y =
      if in_key n n x y
      then key_pixel rgb (entropy w) (Z.to_nat (y * n + x))
      else mkNRGBA 0 0 0 0.
Proof.
  intros Hsz Hreads. apply allocatable_square in Hsz.
  unfold KeyGen, key_pixel, bytes_per_pixel in *. destruct rgb.
  - destruct (keyGenRGB_spec n n w Hsz Hreads)
      as (w' & pix & H1 & H2 & H3 & H4 & H5 & H6).
    exists w', pix. repeat split; assumption.
  - destruct (keyGenBW_spec n n w Hsz Hreads)
      as (w' & pix & H1 & H2 & H3 & H4 & H5 & H6).
    exists w', pix. repeat split; try assumption.
    rewrite H5. f_equal. lia.
Qed.

Lemma in_key_Point_In n x y :
  in_key n n x y = true -> Point_In x y (image_Rect 0 0 n n) = true.
Proof.
  unfold in_key. intros H. zhyp.
  rewrite image_Rect_pos by lia. apply Point_In_range; simpl; lia.
Qed.

(** What [At] answers on a generated key. *)
Lemma key_At n pix x y :
  (forall x y, pix x y = if in_key n n x y then pix x y else mkNRGBA 0 0 0 0) ->
  obj_At (ObjNRGBA (image_Rect 0 0 n n) pix) x y = ColorNRGBA (pix x y).
Proof.
  intros H. simpl.
  destruct (Point_In x y (image_Rect 0 0 n n)) eqn:Hin; [reflexivity|].
  rewrite H. destruct (in_key n n x y) eqn:Hk; [|reflexivity].
  apply in_key_Point_In in Hk. congruence.
Qed.

Lemma KeyGen_At n rgb w :
  4 * n * n <= max_int ->
  reads_pass w (bytes_per_pixel rgb * Z.to_nat (n * Z.max 0 n)) ->
  exists w' ok,
    KeyGen n rgb w = Ok (length (heap w), w') /\
    heap w' = heap w ++ [ok] /\
    obj_Bounds ok = image_Rect 0 0 n n /\
    files w' = files w /\ refused w' = refused w /\
    entropy w' =
      drop (bytes_per_pixel rgb * Z.to_nat (n * Z.max 0 n)) (entropy w) /\
    forall x y, obj_At ok x y =
      ColorNRGBA (if in_key n n x y
                  then key_pixel rgb (entropy w) (Z.to_nat (y * n + x))
                  else mkNRGBA 0 0 0 0).
Proof.
  intros Hsz Hreads.
  destruct (KeyGen_spec n rgb w Hsz Hreads)
    as (w' & pix & H1 & H2 & H3 & H4 & H5 & H6).
  exists w', (ObjNRGBA (image_Rect 0 0 n n) pix).
  repeat split; try assumption.
  intros x y. rewrite key_At.
  - now rewrite H6.
  - intros x' y'. rewrite H6. destruct (in_key n n x' y'); reflexivity.
Qed.

Lemma reads_pass_square rgb n w :
  0 <= n ->
  reads_pass w (bytes_per_pixel rgb * Z.to_nat (n * n)) ->
  reads_pass w (bytes_per_pixel rgb * Z.to_nat (n * Z.max 0 n)).
Proof. intros Hn H. now replace (Z.max 0 n) with n by lia. Qed.

Lemma reads_pass_enough w need :
  (need <= length (entropy w))%nat -> reads_pass w need.
Proof. intros H. now right. Qed.

(** The sizes whose buffer fits the 64-bit [int]. *)
Lemma key_size_fits n :
  0 <= n -> (4 * n * n <= max_int <-> n <= 1518500249).
Proof. unfold max_int. intros Hn. split; intros H; nia. Qed.




Lemma byte_at_lookup e i b : e !! i = Some b -> byte_at e i = b.
Proof. intros H. unfold byte_at. now rewrite nth_lookup, H. Qed.

Lemma byte_at_nil i : byte_at [] i = 0.
Proof. unfold byte_at. now destruct i. Qed.

(** C5, as the code has it.  In monochrome key generation one random byte
    is consumed per pixel, the byte at the pixel's rank in row order, and
    its least-significant bit decides the pixel: bit 0 gives Black, bit 1
    gives White. *)
Theorem C5_one_byte_per_pixel (n : Z) (w : World) :
  0 <= n -> 4 * n * n <= max_int ->
  (Z.to_nat (n * n) <= length (entropy w))%nat ->
  exists k w' ok,
    KeyGen n false w = Ok (k, w') /\
    heap w' !! k = Some ok /\
    entropy w' = drop (Z.to_nat (n * n)) (entropy w) /\
    forall x y, 0 <= x < n -> 0 <= y < n ->
      exists byte,
        entropy w !! Z.to_nat (y * n + x) = Some byte /\
        (Z.testbit byte 0 = false ->
         obj_At ok x y = ColorNRGBA (mkNRGBA 0 0 0 255) /\
         tag (obj_At ok x y) = Black) /\
        (Z.testbit byte 0 = true ->
         obj_At ok x y = ColorNRGBA (mkNRGBA 255 255 255 255) /\
         tag (obj_At ok x y) = White).
Proof.
  intros Hn Hsz Hlen.
  destruct (KeyGen_At n false w Hsz) as (w' & ok & H1 & H2 & H3 & _ & _ & H5 & H6).
  { apply (reads_pass_square false n w Hn). apply reads_pass_enough.
    simpl. lia. }
  exists (length (heap w)), w', ok.
  split; [exact H1|]. split; [rewrite H2; now apply list_lookup_middle|].
  split.
  { rewrite H5. simpl bytes_per_pixel. f_equal.
    replace (Z.max 0 n) with n by lia. lia. }
  intros x y Hx Hy.
  assert (Hi : (Z.to_nat (y * n + x) < length (entropy w))%nat) by nia.
  destruct (lookup_lt_is_Some_2 _ _ Hi) as [byte Hb].
  exists byte. split; [exact Hb|].
  rewrite H6. unfold in_key.
  replace ((0 <=? x) && (x <? n) && (0 <=? y) && (y <? n)) with true
    by (symmetry; zbool).
  unfold key_pixel, bw_key_pixel.
  rewrite (byte_at_lookup _ _ _ Hb), land_1_testbit.
  split; intros ->; split; reflexivity.
Qed.

Lemma C5_one_byte_per_pixel_witness :
  exists k w' ok,
    KeyGen 2 false bytes_world = Ok (k, w') /\
    heap w' !! k = Some ok /\
    entropy w' = drop (Z.to_nat (2 * 2)) (entropy bytes_world) /\
    forall x y, 0 <= x < 2 -> 0 <= y < 2 ->
      exists byte,
        entropy bytes_world !! Z.to_nat (y * 2 + x) = Some byte /\
        (Z.testbit byte 0 = false ->
         obj_At ok x y = ColorNRGBA (mkNRGBA 0 0 0 255) /\
         tag (obj_At ok x y) = Black) /\
        (Z.testbit byte 0 = true ->
         obj_At ok x y = ColorNRGBA (mkNRGBA 255 255 255 255) /\
         tag (obj_At ok x y) = White).
Proof.
  apply (C5_one_byte_per_pixel 2 bytes_world);
    [lia | unfold max_int; lia | simpl; lia].
Defined.

(** C5 as stated fails: the random byte 0, whose least-significant bit is
    0, gives a Black pixel, not a White one. *)
Lemma C5_counterexample :
  Z.testbit 0 0 = false /\
  result_image (KeyGen 1 false (world_of [] [0])) =
    Some (image_Rect 0 0 1 1, [ColorNRGBA (mkNRGBA 0 0 0 255)]) /\
  tag (ColorNRGBA (mkNRGBA 0 0 0 255)) = Black /\
  Black <> White.
Proof.
  split; [reflexivity|]. split; [vm_compute; reflexivity|].
  split; [vm_compute; reflexivity | discriminate].
Qed.

(** C6, as the code has it.  [KeyGen] has no size check and no error
    result: for the size 0 and either mode it does not fail; it returns an
    image with no pixel, of width and height 0, and reads no random byte. *)
Theorem C6_zero_size_returns (rgb : bool) (w : World) :
  exists k w' ok,
    KeyGen 0 rgb w = Ok (k, w') /\
    heap w' !! k = Some ok /\
    obj_Bounds ok = image_Rect 0 0 0 0 /\
    Dx (obj_Bounds ok) = 0 /\ Dy (obj_Bounds ok) = 0 /\
    entropy w' = entropy w /\
    forall x y, Point_In x y (obj_Bounds ok) = false.
Proof.
  destruct (KeyGen_At 0 rgb w) as (w' & ok & H1 & H2 & H3 & _ & _ & H5 & H6).
  { unfold max_int. lia. }
  { apply reads_pass_enough. simpl. rewrite Nat.mul_0_r. lia. }
  exists (length (heap w)), w', ok.
  split; [exact H1|]. split; [rewrite H2; now apply list_lookup_middle|].
  split; [exact H3|]. rewrite H3.
  split; [reflexivity|]. split; [reflexivity|]. split.
  - rewrite H5. simpl. now rewrite Nat.mul_0_r.
  - intros x y. unfold Point_In. simpl.
    destruct (Z.leb_spec 0 x), (Z.ltb_spec x 0); simpl; try reflexivity; lia.
Qed.

(** C6 as stated fails: for the size 0 [KeyGen] returns an image, in both
    modes. *)
Lemma C6_counterexample :
  0 <= 0 /\
  fails (KeyGen 0 false (world_of [] [])) = false /\
  result_image (KeyGen 0 false (world_of [] [])) =
    Some (image_Rect 0 0 0 0, []) /\
  fails (KeyGen 0 true (world_of [] [])) = false /\
  result_image (KeyGen 0 true (world_of [] [])) =
    Some (image_Rect 0 0 0 0, []).
Proof. repeat split; try lia; vm_compute; reflexivity. Qed.

Lemma bind_Panic {T U} (m : M T) (k : T -> M U) w msg :
  m w = Panic msg -> bind m k w = Panic msg.
Proof. intros H. unfold bind. now rewrite H. Qed.

Lemma rand_Read_empty b w :
  entropy w = [] -> b <> [] ->
  rand_Read b w =
    if rand_aborts w
    then Panic "fatal error: crypto/rand: failed to read random data"
    else Ok ((b, 0, true), w).
Proof.
  intros He Hb. unfold rand_Read. rewrite He.
  rewrite take_nil, drop_nil. simpl.
  destruct w as [h e f r a]. simpl in *. subst e.
  destruct b; [congruence|]. destruct a; reflexivity.
Qed.

(** C7: the code at the failing input.  With the crypto/rand of Go 1.22
    and 1.23, when the source is exhausted every read reports an error and
    leaves the buffer as it was; [keyGenBW] and [keyGenRGB] discard that
    result, so [KeyGen] does not fail: it returns an image of the requested
    bounds, every pixel of which is computed from the zeroed buffer, opaque
    black. *)
Theorem C7_failed_source_is_ignored (n : Z) (rgb : bool) (w : World) :
  rand_aborts w = false -> entropy w = [] -> 4 * n * n <= max_int ->
  (forall b, b <> [] -> rand_Read b w = Ok ((b, 0, true), w)) /\
  exists k w' ok,
    KeyGen n rgb w = Ok (k, w') /\
    heap w' !! k = Some ok /\
    obj_Bounds ok = image_Rect 0 0 n n /\
    forall x y, in_key n n x y = true ->
      obj_At ok x y = ColorNRGBA (mkNRGBA 0 0 0 255).
Proof.
  intros Hab He Hsz. split.
  - intros b Hb. rewrite (rand_Read_empty b w He Hb). now rewrite Hab.
  - destruct (KeyGen_At n rgb w Hsz ltac:(now left))
      as (w' & ok & H1 & H2 & H3 & _ & _ & H5 & H6).
    exists (length (heap w)), w', ok.
    split; [exact H1|]. split; [rewrite H2; now apply list_lookup_middle|].
    split; [exact H3|].
    intros x y Hin. rewrite H6, Hin, He. f_equal.
    unfold key_pixel. rewrite !byte_at_nil. destruct rgb; vm_compute; reflexivity.
Qed.

Lemma C7_failed_source_is_ignored_witness :
  (forall b, b <> [] -> rand_Read b (world_of [] []) = Ok ((b, 0, true), world_of [] [])) /\
  exists k w' ok,
    KeyGen 2 true (world_of [] []) = Ok (k, w') /\
    heap w' !! k = Some ok /\
    obj_Bounds ok = image_Rect 0 0 2 2 /\
    forall x y, in_key 2 2 x y = true ->
      obj_At ok x y = ColorNRGBA (mkNRGBA 0 0 0 255).
Proof.
  apply (C7_failed_source_is_ignored 2 true (world_of [] []));
    [reflexivity | reflexivity | unfold max_int; lia].
Defined.

(** The failing input of C7, evaluated: on an exhausted source the read
    reports an error, yet [KeyGen] does not fail and returns a key, all
    black, in both modes. *)
Lemma KeyGen_on_exhausted_source :
  rand_Read [0] (world_of [] []) = Ok (([0], 0, true), world_of [] []) /\
  fails (KeyGen 1 false (world_of [] [])) = false /\
  result_image (KeyGen 1 false (world_of [] [])) =
    Some (image_Rect 0 0 1 1, [ColorNRGBA (mkNRGBA 0 0 0 255)]) /\
  result_image (KeyGen 1 true (world_of [] [])) =
    Some (image_Rect 0 0 1 1, [ColorNRGBA (mkNRGBA 0 0 0 255)]).
Proof. repeat split; vm_compute; reflexivity. Qed.

(** C10. In the revisions of [KeyGen] that receive the key-file path, the
    key does not depend on it: two calls with any two paths in the same
    state are the same computation; with the same size, mode and random
    bytes the keys have the same bounds and the same pixels whatever the
    files and the heap are; and the files are left as they were. *)
Theorem C10_keygen_ignores_path (p1 p2 : string) (q1 q2 : option string)
    (kw : Z) (rgb : bool) (w1 w2 : World) :
  entropy w1 = entropy w2 ->
  4 * kw * kw <= max_int ->
  reads_pass w1 (bytes_per_pixel rgb * Z.to_nat (kw * Z.max 0 kw)) ->
  reads_pass w2 (bytes_per_pixel rgb * Z.to_nat (kw * Z.max 0 kw)) ->
  part_001.KeyGen p1 kw rgb = part_001.KeyGen p2 kw rgb /\
  part_000.KeyGen q1 (Some kw) rgb = part_000.KeyGen q2 (Some kw) rgb /\
  part_000.KeyGen q1 (Some kw) rgb = part_001.KeyGen p1 kw rgb /\
  exists k1 w1' o1 k2 w2' o2,
    part_001.KeyGen p1 kw rgb w1 = Ok (k1, w1') /\
    part_001.KeyGen p2 kw rgb w2 = Ok (k2, w2') /\
    heap w1' !! k1 = Some o1 /\ heap w2' !! k2 = Some o2 /\
    obj_Bounds o1 = obj_Bounds o2 /\
    (forall x y, obj_At o1 x y = obj_At o2 x y) /\
    files w1' = files w1 /\ files w2' = files w2.
Proof.
  intros He Hsz Hr1 Hr2.
  split; [reflexivity|]. split; [reflexivity|]. split; [reflexivity|].
  change (part_001.KeyGen p1 kw rgb) with (KeyGen kw rgb).
  change (part_001.KeyGen p2 kw rgb) with (KeyGen kw rgb).
  destruct (KeyGen_At kw rgb w1 Hsz Hr1)
    as (w1' & o1 & A1 & A2 & A3 & A4 & _ & _ & A6).
  destruct (KeyGen_At kw rgb w2 Hsz Hr2)
    as (w2' & o2 & B1 & B2 & B3 & B4 & _ & _ & B6).
  exists (length (heap w1)), w1', o1, (length (heap w2)), w2', o2.
  split; [exact A1|]. split; [exact B1|].
  split; [rewrite A2; now apply list_lookup_middle|].
  split; [rewrite B2; now apply list_lookup_middle|].
  split; [congruence|]. split; [|split; assumption].
  intros x y. rewrite A6, B6, He. reflexivity.
Qed.

Lemma C10_keygen_ignores_path_witness :
  exists k1 w1' o1 k2 w2' o2,
    part_001.KeyGen "a.png" 2 true bytes_world = Ok (k1, w1') /\
    part_001.KeyGen "otp-key.png" 2 true other_world = Ok (k2, w2') /\
    heap w1' !! k1 = Some o1 /\ heap w2' !! k2 = Some o2 /\
    obj_Bounds o1 = obj_Bounds o2 /\
    (forall x y, obj_At o1 x y = obj_At o2 x y) /\
    files w1' = files bytes_world /\ files w2' = files other_world.
Proof.
  apply (C10_keygen_ignores_path "a.png" "otp-key.png" None None 2 true
           bytes_world other_world);
    [reflexivity | unfold max_int; lia | right; simpl; lia | right; simpl; lia].
Defined.

(** ** The transform on concrete images *)

Lemma C1_decrypt_is_encrypt_rgb_involution_witness :
  (forall img keyImg rgb,
     Decrypt nearest img keyImg rgb = Encrypt nearest img keyImg rgb) /\
  exists c w1 d w2 od,
    Encrypt nearest 1 0 true example_world = Ok (c, w1) /\
    Encrypt nearest c 0 true w1 = Ok (d, w2) /\
    heap w2 !! d = Some od /\
    obj_Bounds od = obj_Bounds example_key /\
    forall x y, Point_In x y (obj_Bounds example_key) = true ->
      rgb8 (obj_At od x y) = rgb8 (obj_At example_source x y).
Proof.
  apply (C1_decrypt_is_encrypt_rgb_involution nearest 1 0 example_world
           example_source example_key);
    [reflexivity | reflexivity | allocatable_concrete | reflexivity].
Defined.

Lemma C2_rgb_channel_xor_witness :
  exists out w' oo,
    Encrypt nearest 1 0 true resize_world = Ok (out, w') /\
    heap w' !! out = Some oo /\
    forall x y, Point_In x y (obj_Bounds example_key) = true ->
      let ro := resized nearest (Dx (obj_Bounds example_key))
                  (Dy (obj_Bounds example_key)) one_pixel in
      let '(r, g, b) := rgb8 (obj_At ro x y) in
      let '(kr, kg, kb) := rgb8 (obj_At example_key x y) in
      obj_At oo x y =
        ColorRGBA (mkRGBA (Z.lxor r kr) (Z.lxor g kg) (Z.lxor b kb) 255).
Proof.
  apply (C2_rgb_channel_xor nearest 1 0 resize_world one_pixel example_key);
    [reflexivity | reflexivity | allocatable_concrete].
Defined.


Lemma C8_output_geometry_witness :
  exists out w' oo,
    Encrypt nearest 1 0 false resize_world = Ok (out, w') /\
    heap w' !! out = Some oo /\
    obj_Bounds oo = obj_Bounds example_key /\
    Dx (obj_Bounds oo) = Dx (obj_Bounds example_key) /\
    Dy (obj_Bounds oo) = Dy (obj_Bounds example_key) /\
    heap w' !! 0%nat = Some example_key /\
    (forall l o, heap resize_world !! l = Some o -> heap w' !! l = Some o).
Proof.
  apply (C8_output_geometry nearest 1 0 false resize_world one_pixel example_key);
    [reflexivity | reflexivity | allocatable_concrete].
Defined.

(** C1 as stated fails: a 2x2 source whose bounds start at (10, 10) has
    the dimensions of the 2x2 key, yet encrypting it twice with the key
    gives four black pixels, while every pixel of the source has red,
    green and blue (200, 100, 50). *)
Lemma C1_counterexample :
  Dx (obj_Bounds offset_source) = Dx (obj_Bounds example_key) /\
  Dy (obj_Bounds offset_source) = Dy (obj_Bounds example_key) /\
  result_image ((c <- Encrypt nearest 1 0 true ;; Encrypt nearest c 0 true)
                  offset_world) =
    Some (image_Rect 0 0 2 2,
          [ColorRGBA (mkRGBA 0 0 0 255); ColorRGBA (mkRGBA 0 0 0 255);
           ColorRGBA (mkRGBA 0 0 0 255); ColorRGBA (mkRGBA 0 0 0 255)]) /\
  obj_pixels offset_source =
    [ColorRGBA (mkRGBA 200 100 50 255); ColorRGBA (mkRGBA 200 100 50 255);
     ColorRGBA (mkRGBA 200 100 50 255); ColorRGBA (mkRGBA 200 100 50 255)] /\
  rgb8 (ColorRGBA (mkRGBA 0 0 0 255)) <> rgb8 (ColorRGBA (mkRGBA 200 100 50 255)).
Proof. repeat split; vm_compute; congruence. Qed.

(** * Further properties of the code *)

(** ** The monochrome model *)

Lemma tag_luma c r g b a :
  Color_RGBA c = (r, g, b, a) ->
  0 <= r <= 0xffff -> 0 <= g <= 0xffff -> 0 <= b <= 0xffff ->
  tag c = (luma r g b <? 0x8000).
Proof.
  intros Hc Hr Hg Hb. unfold tag, luma.
  destruct c as [p| | |].
  - destruct p; simpl in Hc; injection Hc as <- <- <- <-; reflexivity.
  - unfold monoModel. rewrite Hc. unfold uint32, uint16.
    rewrite (Z.mod_small (299 * r + 587 * g + 114 * b + 500)) by lia.
    rewrite Z.mod_small; [reflexivity|].
    split; [apply Z.div_pos; lia | apply Z.div_lt_upper_bound; lia].
  - unfold monoModel. rewrite Hc. unfold uint32, uint16.
    rewrite (Z.mod_small (299 * r + 587 * g + 114 * b + 500)) by lia.
    rewrite Z.mod_small; [reflexivity|].
    split; [apply Z.div_pos; lia | apply Z.div_lt_upper_bound; lia].
  - unfold monoModel. rewrite Hc. unfold uint32, uint16.
    rewrite (Z.mod_small (299 * r + 587 * g + 114 * b + 500)) by lia.
    rewrite Z.mod_small; [reflexivity|].
    split; [apply Z.div_pos; lia | apply Z.div_lt_upper_bound; lia].
Qed.

(** X1. The threshold is monotone: a color that is at least as bright in
    each of its 16-bit channels as a White one is White. *)
Theorem mono_threshold_monotone c c' r g b a r' g' b' a' :
  Color_RGBA c = (r, g, b, a) -> Color_RGBA c' = (r', g', b', a') ->
  0 <= r <= r' -> 0 <= g <= g' -> 0 <= b <= b' ->
  r' <= 0xffff -> g' <= 0xffff -> b' <= 0xffff ->
  tag c = White -> tag c' = White.
Proof.
  intros Hc Hc' Hr Hg Hb Hr' Hg' Hb'.
  rewrite (tag_luma c r g b a Hc) by lia.
  rewrite (tag_luma c' r' g' b' a' Hc') by lia.
  unfold White, luma. intros H.
  apply Z.ltb_ge in H. apply Z.ltb_ge.
  etransitivity; [exact H|]. apply Z.div_le_mono; lia.
Qed.

Lemma mono_threshold_monotone_witness :
  tag (ColorRGBA (mkRGBA 200 128 255 255)) = White.
Proof.
  apply (mono_threshold_monotone mid_gray (ColorRGBA (mkRGBA 200 128 255 255))
           32896 32896 32896 65535 51400 32896 65535 65535);
    try reflexivity; lia.
Defined.

(** X2. An opaque gray [(v, v, v, 255)] is Black exactly when [v < 128]:
    mid-gray 128 is already White. *)
Theorem gray_threshold v :
  0 <= v < 256 ->
  (tag (ColorRGBA (mkRGBA v v v 255)) = Black <-> v < 128) /\
  (tag (ColorNRGBA (mkNRGBA v v v 255)) = Black <-> v < 128).
Proof.
  intros Hv.
  assert (H : Bool.eqb (tag (ColorRGBA (mkRGBA v v v 255))) (v <? 128) &&
              Bool.eqb (tag (ColorNRGBA (mkNRGBA v v v 255))) (v <? 128) = true).
  { apply (byte_cases (fun v =>
             Bool.eqb (tag (ColorRGBA (mkRGBA v v v 255))) (v <? 128) &&
             Bool.eqb (tag (ColorNRGBA (mkNRGBA v v v 255))) (v <? 128)));
      [vm_compute; reflexivity | assumption]. }
  apply andb_true_iff in H. destruct H as [H1 H2].
  apply eqb_prop in H1. apply eqb_prop in H2. rewrite H1, H2. unfold Black.
  destruct (Z.ltb_spec v 128); split; split; intros; try reflexivity;
    try lia; discriminate.
Qed.

Lemma gray_threshold_witness :
  (tag (ColorRGBA (mkRGBA 127 127 127 255)) = Black <-> 127 < 128) /\
  (tag (ColorNRGBA (mkNRGBA 127 127 127 255)) = Black <-> 127 < 128).
Proof. apply (gray_threshold 127). lia. Defined.

(** ** The transform *)

Lemma rgb8_opaque c :
  opaque_RGBA c -> rgb8 (ColorRGBA c) = (R c, G c, B c).
Proof.
  intros (Hr & Hg & Hb & _). unfold rgb8. simpl.
  now rewrite !chan8_spread8.
Qed.

Lemma xor_pixel_opaque_involutive c kc :
  opaque_RGBA c ->
  xor_pixel (ColorRGBA (xor_pixel (ColorRGBA c) kc)) kc = c.
Proof.
  intros Hc. pose proof (rgb8_opaque c Hc) as Hc8.
  destruct Hc as (_ & _ & _ & Ha).
  unfold xor_pixel at 1. rewrite rgb8_xor_pixel, Hc8.
  destruct (rgb8 kc) as [[kr kg] kb].
  rewrite !lxor_cancel. destruct c; simpl in *. now subst.
Qed.

Lemma xor_pixel_comm c kc : xor_pixel c kc = xor_pixel kc c.
Proof.
  unfold xor_pixel.
  destruct (rgb8 c) as [[r g] b]. destruct (rgb8 kc) as [[kr kg] kb].
  now rewrite (Z.lxor_comm r), (Z.lxor_comm g), (Z.lxor_comm b).
Qed.

Lemma lxor_two_time a b k : Z.lxor (Z.lxor a k) (Z.lxor b k) = Z.lxor a b.
Proof.
  rewrite (Z.lxor_comm b k), Z.lxor_assoc, <- (Z.lxor_assoc k k b).
  now rewrite Z.lxor_nilpotent, Z.lxor_0_l.
Qed.

Lemma xor_pixel_two_time m1 m2 kc :
  xor_pixel (ColorRGBA (xor_pixel m1 kc)) (ColorRGBA (xor_pixel m2 kc)) =
  xor_pixel m1 m2.
Proof.
  unfold xor_pixel at 1. rewrite !rgb8_xor_pixel. unfold xor_pixel.
  destruct (rgb8 m1) as [[r1 g1] b1]. destruct (rgb8 m2) as [[r2 g2] b2].
  destruct (rgb8 kc) as [[kr kg] kb].
  now rewrite !lxor_two_time.
Qed.

Lemma xor_pixel_self c : xor_pixel c c = mkRGBA 0 0 0 255.
Proof.
  unfold xor_pixel. destruct (rgb8 c) as [[r g] b].
  now rewrite !Z.lxor_nilpotent.
Qed.

Lemma transform_pixel_opaque rgb ro ko x y : A (transform_pixel rgb ro ko x y) = 255.
Proof.
  unfold transform_pixel. destruct rgb.
  - unfold xor_pixel. destruct (rgb8 _) as [[r g] b].
    destruct (rgb8 _) as [[kr kg] kb]. reflexivity.
  - destruct (bw_result _ _); reflexivity.
Qed.

Section TransformExtras.

Variable Lanczos3 : InterpolationFunction.

(** X3. Exact round trip in RGB mode: for a source that is an
    [image.RGBA] with the bounds of the key and opaque pixels, decrypting the
    encryption gives an image with the same bounds that answers the same
    color as the source at every coordinate. *)
Theorem rgb_roundtrip_exact (R K : nat) (w : World) (b : Rectangle)
    (pix : Z -> Z -> color_RGBA) (ko : ImgObj) :
  heap w !! R = Some (ObjRGBA b pix) -> heap w !! K = Some ko ->
  obj_Bounds ko = b -> allocatable b ->
  (forall x y, Point_In x y b = true -> opaque_RGBA (pix x y)) ->
  exists c w1 d w2 od,
    Encrypt Lanczos3 R K true w = Ok (c, w1) /\
    Decrypt Lanczos3 c K true w1 = Ok (d, w2) /\
    heap w2 !! d = Some od /\
    obj_Bounds od = b /\
    forall x y, obj_At od x y = obj_At (ObjRGBA b pix) x y.
Proof.
  intros HR HK Hb Hal Hop. subst b.
  destruct (Encrypt_spec Lanczos3 R K true w _ ko HR HK Hal)
    as (w1 & pix1 & Hrun1 & Hext1 & Hc & Hpix1).
  pose proof (extends_lookup _ _ _ _ Hext1 HK) as HK1.
  destruct (Encrypt_spec Lanczos3 _ K true w1 _ ko Hc HK1 Hal)
    as (w2 & pix2 & Hrun2 & Hext2 & Hd & Hpix2).
  eexists _, w1, _, w2, _.
  split; [exact Hrun1|]. split; [exact Hrun2|]. split; [exact Hd|].
  split; [reflexivity|].
  intros x y. simpl obj_At.
  destruct (Point_In x y (obj_Bounds ko)) eqn:Hin; [|reflexivity].
  destruct (Point_In_dims _ _ _ Hin) as [Hpx Hpy].
  rewrite Hpix2, Hin. unfold transform_pixel.
  rewrite resized_same by (simpl; lia).
  simpl obj_At. rewrite Hin, Hpix1, Hin. unfold transform_pixel.
  rewrite resized_same by (simpl; lia).
  simpl obj_At. rewrite Hin.
  now rewrite xor_pixel_opaque_involutive by (apply Hop; assumption).
Qed.

(** X4. Key reuse: when two sources are encrypted in RGB mode with the same
    key, transforming one ciphertext with the other gives, at every
    coordinate of the key's bounds, the XOR of the two resized sources: the
    key has cancelled out. *)
Theorem two_time_pad (M1 M2 K : nat) (w : World) (o1 o2 ko : ImgObj) :
  heap w !! M1 = Some o1 -> heap w !! M2 = Some o2 -> heap w !! K = Some ko ->
  allocatable (obj_Bounds ko) ->
  let r1 := resized Lanczos3 (Dx (obj_Bounds ko)) (Dy (obj_Bounds ko)) o1 in
  let r2 := resized Lanczos3 (Dx (obj_Bounds ko)) (Dy (obj_Bounds ko)) o2 in
  exists c1 w1 c2 w2 x w3 ox,
    Encrypt Lanczos3 M1 K true w = Ok (c1, w1) /\
    Encrypt Lanczos3 M2 K true w1 = Ok (c2, w2) /\
    Encrypt Lanczos3 c1 c2 true w2 = Ok (x, w3) /\
    heap w3 !! x = Some ox /\
    forall x y, Point_In x y (obj_Bounds ko) = true ->
      obj_At ox x y = ColorRGBA (xor_pixel (obj_At r1 x y) (obj_At r2 x y)).
Proof.
  intros H1 H2 HK Hal r1 r2.
  destruct (Encrypt_spec Lanczos3 M1 K true w _ ko H1 HK Hal)
    as (w1 & pix1 & Hrun1 & Hext1 & Hc1 & Hpix1).
  pose proof (extends_lookup _ _ _ _ Hext1 HK) as HK1.
  pose proof (extends_lookup _ _ _ _ Hext1 H2) as H21.
  destruct (Encrypt_spec Lanczos3 M2 K true w1 _ ko H21 HK1 Hal)
    as (w2 & pix2 & Hrun2 & Hext2 & Hc2 & Hpix2).
  pose proof (extends_lookup _ _ _ _ Hext2 Hc1) as Hc12.
  destruct (Encrypt_spec Lanczos3 _ _ true w2 _ _ Hc12 Hc2 Hal)
    as (w3 & pix3 & Hrun3 & Hext3 & Hx & Hpix3).
  eexists _, w1, _, w2, _, w3, _.
  split; [exact Hrun1|]. split; [exact Hrun2|]. split; [exact Hrun3|].
  split; [exact Hx|].
  intros x y Hin.
  destruct (Point_In_dims _ _ _ Hin) as [Hpx Hpy].
  simpl obj_At. simpl obj_Bounds in Hpix3. rewrite Hin, Hpix3, Hin.
  unfold transform_pixel. rewrite resized_same by (simpl; lia).
  simpl obj_At. rewrite Hin, Hpix1, Hpix2, Hin. unfold transform_pixel.
  fold r1 r2. now rewrite xor_pixel_two_time.
Qed.

(** X5. In RGB mode, for two images with the same bounds, it does not
    matter which one is the source and which one is the key: both results
    answer the same color at every coordinate. *)
Theorem rgb_transform_symmetric (P Q : nat) (w : World) (po qo : ImgObj) :
  heap w !! P = Some po -> heap w !! Q = Some qo ->
  obj_Bounds po = obj_Bounds qo ->
  allocatable (obj_Bounds qo) ->
  exists c1 w1 o1 c2 w2 o2,
    Encrypt Lanczos3 P Q true w = Ok (c1, w1) /\
    Encrypt Lanczos3 Q P true w = Ok (c2, w2) /\
    heap w1 !! c1 = Some o1 /\ heap w2 !! c2 = Some o2 /\
    obj_Bounds o1 = obj_Bounds o2 /\
    forall x y, obj_At o1 x y = obj_At o2 x y.
Proof.
  intros HP HQ Hb Hal.
  destruct (Encrypt_spec Lanczos3 P Q true w _ _ HP HQ Hal)
    as (w1 & pix1 & Hrun1 & _ & Hc1 & Hpix1).
  destruct (Encrypt_spec Lanczos3 Q P true w _ _ HQ HP
              ltac:(rewrite Hb; exact Hal))
    as (w2 & pix2 & Hrun2 & _ & Hc2 & Hpix2).
  eexists _, w1, _, _, w2, _.
  split; [exact Hrun1|]. split; [exact Hrun2|].
  split; [exact Hc1|]. split; [exact Hc2|].
  split; [simpl; congruence|].
  intros x y. simpl obj_At. rewrite Hb.
  destruct (Point_In x y (obj_Bounds qo)) eqn:Hin; [|reflexivity].
  destruct (Point_In_dims _ _ _ Hin) as [Hpx Hpy].
  rewrite Hpix1, Hpix2, Hb, Hin. unfold transform_pixel.
  rewrite !resized_same by (rewrite ?Hb; lia).
  now rewrite xor_pixel_comm.
Qed.

(** X6. An image transformed with itself as the key: opaque black
    everywhere in RGB mode, White everywhere in monochrome mode. *)
Theorem transform_with_itself (P : nat) (rgb : bool) (w : World) (po : ImgObj) :
  heap w !! P = Some po ->
  allocatable (obj_Bounds po) ->
  exists c w1 oc,
    Encrypt Lanczos3 P P rgb w = Ok (c, w1) /\
    heap w1 !! c = Some oc /\
    forall x y, Point_In x y (obj_Bounds po) = true ->
      obj_At oc x y =
        ColorRGBA (if rgb then mkRGBA 0 0 0 255 else mkRGBA 255 255 255 255).
Proof.
  intros HP Hal.
  destruct (Encrypt_spec Lanczos3 P P rgb w _ _ HP HP Hal)
    as (w1 & pix1 & Hrun1 & _ & Hc1 & Hpix1).
  eexists _, w1, _. split; [exact Hrun1|]. split; [exact Hc1|].
  intros x y Hin.
  destruct (Point_In_dims _ _ _ Hin) as [Hpx Hpy].
  simpl obj_At. rewrite Hin, Hpix1, Hin. unfold transform_pixel.
  rewrite resized_same by lia. destruct rgb.
  - now rewrite xor_pixel_self.
  - unfold bw_result. rewrite eqb_reflx. reflexivity.
Qed.

(** X7. Every pixel the transform writes is opaque: inside the key's
    bounds the output answers a [color.RGBA] with alpha 255, in both modes
    and whatever the alpha of the source and of the key. *)
Theorem output_is_opaque (S K : nat) (rgb : bool) (w : World) (so ko : ImgObj) :
  heap w !! S = Some so -> heap w !! K = Some ko ->
  allocatable (obj_Bounds ko) ->
  exists out w' oo,
    Encrypt Lanczos3 S K rgb w = Ok (out, w') /\
    heap w' !! out = Some oo /\
    forall x y, Point_In x y (obj_Bounds ko) = true ->
      exists c, obj_At oo x y = ColorRGBA c /\ A c = 255.
Proof.
  intros HS HK Hal.
  destruct (Encrypt_spec Lanczos3 S K rgb w _ _ HS HK Hal)
    as (w1 & pix1 & Hrun1 & _ & Hc1 & Hpix1).
  eexists _, w1, _. split; [exact Hrun1|]. split; [exact Hc1|].
  intros x y Hin. simpl obj_At. rewrite Hin.
  eexists. split; [reflexivity|].
  rewrite Hpix1, Hin. apply transform_pixel_opaque.
Qed.


(** X9. The image returned is a new object: its pointer was not allocated
    before the call, so it is neither the source nor the key. *)
Theorem output_is_fresh (S K : nat) (rgb : bool) (w : World) (so ko : ImgObj) :
  heap w !! S = Some so -> heap w !! K = Some ko ->
  allocatable (obj_Bounds ko) ->
  exists out w',
    Encrypt Lanczos3 S K rgb w = Ok (out, w') /\
    heap w !! out = None /\ out <> S /\ out <> K /\
    is_Some (heap w' !! out).
Proof.
  intros HS HK Hal.
  destruct (Encrypt_spec Lanczos3 S K rgb w _ _ HS HK Hal)
    as (w1 & pix1 & Hrun1 & _ & Hc1 & _).
  pose proof (lookup_lt_Some _ _ _ HS). pose proof (lookup_lt_Some _ _ _ HK).
  eexists _, w1. split; [exact Hrun1|].
  split; [apply lookup_ge_None; lia|].
  split; [lia|]. split; [lia|]. eauto.
Qed.

End TransformExtras.

Section TransformEdges.

Variable Lanczos3 : InterpolationFunction.

(** X10. A key whose bounds have a negative width or height makes the
    transform panic, in [image.NewRGBA], before anything is computed. *)
Theorem negative_key_panics (S K : nat) (rgb : bool) (w : World) (ko : ImgObj) :
  heap w !! K = Some ko ->
  Dx (obj_Bounds ko) < 0 \/ Dy (obj_Bounds ko) < 0 ->
  Encrypt Lanczos3 S K rgb w =
    Panic "image: NewRGBA Rectangle has huge or negative dimensions" /\
  Decrypt Lanczos3 S K rgb w =
    Panic "image: NewRGBA Rectangle has huge or negative dimensions".
Proof.
  intros HK Hneg.
  assert (H : Encrypt Lanczos3 S K rgb w =
              Panic "image: NewRGBA Rectangle has huge or negative dimensions").
  { unfold Encrypt.
    rewrite (bind_Ok _ _ _ _ _ (Bounds_Ok K w ko HK)).
    rewrite (bind_Ok _ _ _ _ _ (Bounds_Ok K w ko HK)).
    unfold image_NewRGBA, bind at 1 2.
    now rewrite (pixelBufferLength_Panic _ "RGBA" w Hneg). }
  split; exact H.
Qed.

(** X11. Exact round trip in monochrome mode on a monochrome image: for a
    source that is an [image.RGBA] with the bounds of the key, every pixel of
    which is opaque black or opaque white, decrypting the encryption answers
    the same color as the source at every coordinate. *)
Theorem mono_roundtrip_exact (R K : nat) (w : World) (b : Rectangle)
    (pix : Z -> Z -> color_RGBA) (ko : ImgObj) :
  heap w !! R = Some (ObjRGBA b pix) -> heap w !! K = Some ko ->
  obj_Bounds ko = b -> allocatable b ->
  (forall x y, Point_In x y b = true ->
     pix x y = mkRGBA 0 0 0 255 \/ pix x y = mkRGBA 255 255 255 255) ->
  exists c w1 d w2 od,
    Encrypt Lanczos3 R K false w = Ok (c, w1) /\
    Decrypt Lanczos3 c K false w1 = Ok (d, w2) /\
    heap w2 !! d = Some od /\
    obj_Bounds od = b /\
    forall x y, obj_At od x y = obj_At (ObjRGBA b pix) x y.
Proof.
  intros HR HK Hb Hal Hbw. subst b.
  destruct (Encrypt_spec Lanczos3 R K false w _ ko HR HK Hal)
    as (w1 & pix1 & Hrun1 & Hext1 & Hc & Hpix1).
  pose proof (extends_lookup _ _ _ _ Hext1 HK) as HK1.
  destruct (Encrypt_spec Lanczos3 _ K false w1 _ ko Hc HK1 Hal)
    as (w2 & pix2 & Hrun2 & Hext2 & Hd & Hpix2).
  eexists _, w1, _, w2, _.
  split; [exact Hrun1|]. split; [exact Hrun2|]. split; [exact Hd|].
  split; [reflexivity|].
  intros x y. simpl obj_At.
  destruct (Point_In x y (obj_Bounds ko)) eqn:Hin; [|reflexivity].
  destruct (Point_In_dims _ _ _ Hin) as [Hpx Hpy].
  rewrite Hpix2, Hin. unfold transform_pixel.
  rewrite resized_same by (simpl; lia).
  simpl obj_At. rewrite Hin, Hpix1, Hin. unfold transform_pixel.
  rewrite resized_same by (simpl; lia).
  simpl obj_At. rewrite Hin, tag_tag_RGBA.
  f_equal.
  destruct (Hbw x y Hin) as [-> | ->];
    destruct (tag (obj_At ko x y)); reflexivity.
Qed.

(** The earlier revision of [Encrypt]. *)
Lemma legacy_Encrypt_spec img keyImg rgb w so ko :
  heap w !! img = Some so -> heap w !! keyImg = Some ko ->
  allocatable (obj_Bounds ko) ->
  exists out w' pix,
    part_001.Encrypt Lanczos3 img keyImg rgb w = Ok (out, w') /\
    extends w w' /\
    heap w !! out = None /\
    heap w' !! out = Some (ObjRGBA (obj_Bounds ko) pix) /\
    forall x y, pix x y =
      if Point_In x y (obj_Bounds ko)
      then transform_pixel rgb
             (resized Lanczos3 (Dx (obj_Bounds ko)) (Dy (obj_Bounds ko)) so)
             ko x y
      else mkRGBA 0 0 0 0.
Proof.
  intros Hs Hk Hal.
  set (b := obj_Bounds ko) in *.
  set (ro := resized Lanczos3 (Dx b) (Dy b) so).
  pose proof (lookup_lt_Some _ _ _ Hs) as Ls.
  pose proof (lookup_lt_Some _ _ _ Hk) as Lk.
  destruct (Resize_spec Lanczos3 (Dx b) (Dy b) img w so Hs)
    as (img' & wr & Hres & Hro & Hcase).
  fold ro in Hro, Hcase.
  assert (Hwr : (length (heap w) <= length (heap wr))%nat /\
                (forall l, (l < length (heap w))%nat ->
                           heap wr !! l = heap w !! l) /\
                entropy wr = entropy w /\ files wr = files w /\
                refused wr = refused w /\ rand_aborts wr = rand_aborts w).
  { destruct Hcase as [[-> ->]|[-> ->]]; simpl.
    - repeat split; lia.
    - repeat split; try (rewrite ?length_app; simpl; lia).
      intros l Hl. now rewrite lookup_app_l. }
  destruct Hwr as (Hlen & Hold & Her & Hfr & Hrr & Habr).
  assert (Hkr : heap wr !! keyImg = Some ko) by (rewrite Hold by lia; exact Hk).
  pose proof (lookup_lt_Some _ _ _ Hro) as Lr.
  set (out := length (heap wr)).
  set (wa := mkWorld (heap wr ++ [ObjRGBA b (fun _ _ => mkRGBA 0 0 0 0)])
               (entropy wr) (files wr) (refused wr) (rand_aborts wr)).
  assert (Hra : heap wa !! img' = Some ro) by (simpl; now rewrite lookup_app_l).
  assert (Hka : heap wa !! keyImg = Some ko)
    by (simpl; rewrite lookup_app_l by lia; exact Hkr).
  assert (Hoa : heap wa !! out = Some (ObjRGBA b (fun _ _ => mkRGBA 0 0 0 0)))
    by (simpl; now apply list_lookup_middle).
  assert (Hne : img' <> out) by (unfold out; lia).
  assert (Hkne : keyImg <> out) by (unfold out; lia).
  assert (Hpre : exists w' pix,
    (if rgb then encRGB img' keyImg out else encBW img' keyImg out) wa = Ok (tt, w') /\
    files w' = files wa /\
    (refused w' = refused wa /\ rand_aborts w' = rand_aborts wa) /\
    entropy w' = entropy wa /\
    (length (heap wa) <= length (heap w'))%nat /\
    (forall l, (l < length (heap wa))%nat -> l <> out -> heap w' !! l = heap wa !! l) /\
    heap w' !! out = Some (ObjRGBA b pix) /\
    forall x y, pix x y =
      if Point_In x y b then transform_pixel rgb ro ko x y else mkRGBA 0 0 0 0).
  { destruct rgb.
    - destruct (encRGB_spec img' keyImg out wa ro ko _ Hra Hka Hoa Hne Hkne)
        as (w' & pix & Hrun & Hf & [Hr Hab] & He & [Hl Ho] & Hp & Hpix).
      exists w', pix. repeat split; try assumption.
      + lia.
      + intros l _ Hlo. now apply Ho.
    - destruct (encBW_spec img' keyImg out wa ro ko _ Hra Hka Hoa Hkne Hal)
        as (w' & pix & Hrun & Hf & [Hr Hab] & He & Hl & Ho & Hp & Hpix).
      exists w', pix. repeat split; try assumption. lia. }
  destruct Hpre as (w' & pix & Hrun & Hf & [Hr Hab] & He & Hl & Ho & Hp & Hpix).
  exists out, w', pix. split; [|split; [|split; [|split]]].
  - unfold part_001.Encrypt.
    rewrite (bind_Ok _ _ _ _ _ (Bounds_Ok keyImg w ko Hk)). fold b.
    rewrite (bind_Ok _ _ _ _ _ Hres).
    rewrite (bind_Ok _ _ _ _ _ (Bounds_Ok keyImg wr ko Hkr)). fold b.
    rewrite (bind_Ok _ _ _ _ _ (image_NewRGBA_Ok b wr Hal)).
    fold out. fold wa.
    rewrite (bind_Ok _ _ _ _ _ Hrun). reflexivity.
  - apply extends_from_lookup.
    + simpl in Hl. rewrite length_app in Hl. simpl in Hl. lia.
    + intros l Hlt.
      rewrite Ho by (simpl; rewrite ?length_app; simpl; unfold out; lia).
      simpl. rewrite lookup_app_l by lia. now apply Hold.
    + rewrite He. exact Her.
    + rewrite Hf. exact Hfr.
    + rewrite Hr. exact Hrr.
    + rewrite Hab. exact Habr.
  - apply lookup_ge_None. unfold out. lia.
  - exact Hp.
  - exact Hpix.
Qed.

(** X12. The earlier revision of [Encrypt], which resizes the source before
    it allocates the output, returns the same image as the current one:
    same bounds and same color at every coordinate. *)
Theorem legacy_Encrypt_same_image (S K : nat) (rgb : bool) (w : World)
    (so ko : ImgObj) :
  heap w !! S = Some so -> heap w !! K = Some ko ->
  allocatable (obj_Bounds ko) ->
  exists c1 w1 o1 c2 w2 o2,
    Encrypt Lanczos3 S K rgb w = Ok (c1, w1) /\
    part_001.Encrypt Lanczos3 S K rgb w = Ok (c2, w2) /\
    heap w1 !! c1 = Some o1 /\ heap w2 !! c2 = Some o2 /\
    obj_Bounds o1 = obj_Bounds o2 /\
    forall x y, obj_At o1 x y = obj_At o2 x y.
Proof.
  intros HS HK Hal.
  destruct (Encrypt_spec Lanczos3 S K rgb w _ _ HS HK Hal)
    as (w1 & pix1 & Hrun1 & _ & Hc1 & Hpix1).
  destruct (legacy_Encrypt_spec S K rgb w _ _ HS HK Hal)
    as (c2 & w2 & pix2 & Hrun2 & _ & _ & Hc2 & Hpix2).
  eexists _, w1, _, c2, w2, _.
  split; [exact Hrun1|]. split; [exact Hrun2|].
  split; [exact Hc1|]. split; [exact Hc2|].
  split; [reflexivity|].
  intros x y. simpl. now rewrite Hpix1, Hpix2.
Qed.

End TransformEdges.

(** ** Key generation and saving *)

Lemma rgb_key_pixel_bytes b0 b1 b2 :
  is_byte b0 -> is_byte b1 -> is_byte b2 ->
  rgb_key_pixel b0 b1 b2 = mkNRGBA b0 b1 b2 255.
Proof.
  intros H0 H1 H2. unfold rgb_key_pixel, nrgbaModel, Color_RGBA, color_RGBA_RGBA.
  cbn [R G B A].
  change (spread8 255 =? 0xffff) with true. cbv iota.
  fold (chan8 (spread8 b0)). fold (chan8 (spread8 b1)). fold (chan8 (spread8 b2)).
  now rewrite !chan8_spread8.
Qed.

(** X13. In RGB key generation three random bytes are consumed per pixel,
    those at ranks [3i], [3i+1], [3i+2] for the pixel of rank [i] in row
    order, and they become its red, green and blue; the alpha is 255. *)
Theorem rgb_key_three_bytes_per_pixel (n : Z) (w : World) :
  0 <= n -> 4 * n * n <= max_int ->
  (3 * Z.to_nat (n * n) <= length (entropy w))%nat ->
  Forall is_byte (entropy w) ->
  exists k w' ok,
    KeyGen n true w = Ok (k, w') /\
    heap w' !! k = Some ok /\
    entropy w' = drop (3 * Z.to_nat (n * n)) (entropy w) /\
    forall x y, 0 <= x < n -> 0 <= y < n ->
      let i := Z.to_nat (y * n + x) in
      exists b0 b1 b2,
        entropy w !! (3 * i)%nat = Some b0 /\
        entropy w !! (3 * i + 1)%nat = Some b1 /\
        entropy w !! (3 * i + 2)%nat = Some b2 /\
        obj_At ok x y = ColorNRGBA (mkNRGBA b0 b1 b2 255).
Proof.
  intros Hn Hsz Hlen Hbytes.
  destruct (KeyGen_At n true w Hsz) as (w' & ok & H1 & H2 & H3 & _ & _ & H5 & H6).
  { apply (reads_pass_square true n w Hn). apply reads_pass_enough.
    simpl bytes_per_pixel. lia. }
  exists (length (heap w)), w', ok.
  split; [exact H1|]. split; [rewrite H2; now apply list_lookup_middle|].
  split.
  { rewrite H5. simpl bytes_per_pixel. now replace (Z.max 0 n) with n by lia. }
  intros x y Hx Hy i.
  assert (Hi : (i < Z.to_nat (n * n))%nat) by (unfold i; nia).
  destruct (lookup_lt_is_Some_2 (entropy w) (3 * i)%nat ltac:(lia)) as [b0 Hb0].
  destruct (lookup_lt_is_Some_2 (entropy w) (3 * i + 1)%nat ltac:(lia)) as [b1 Hb1].
  destruct (lookup_lt_is_Some_2 (entropy w) (3 * i + 2)%nat ltac:(lia)) as [b2 Hb2].
  exists b0, b1, b2. repeat split; try assumption.
  rewrite H6. unfold in_key.
  replace ((0 <=? x) && (x <? n) && (0 <=? y) && (y <? n)) with true
    by (symmetry; zbool).
  unfold key_pixel. fold i.
  rewrite (byte_at_lookup _ _ _ Hb0), (byte_at_lookup _ _ _ Hb1),
    (byte_at_lookup _ _ _ Hb2).
  rewrite Forall_lookup in Hbytes.
  now rewrite rgb_key_pixel_bytes by (eapply Hbytes; eassumption).
Qed.

Lemma rgb_key_three_bytes_per_pixel_witness :
  exists k w' ok,
    KeyGen 2 true bytes_world = Ok (k, w') /\
    heap w' !! k = Some ok /\
    entropy w' = drop (3 * Z.to_nat (2 * 2)) (entropy bytes_world) /\
    forall x y, 0 <= x < 2 -> 0 <= y < 2 ->
      let i := Z.to_nat (y * 2 + x) in
      exists b0 b1 b2,
        entropy bytes_world !! (3 * i)%nat = Some b0 /\
        entropy bytes_world !! (3 * i + 1)%nat = Some b1 /\
        entropy bytes_world !! (3 * i + 2)%nat = Some b2 /\
        obj_At ok x y = ColorNRGBA (mkNRGBA b0 b1 b2 255).
Proof.
  apply (rgb_key_three_bytes_per_pixel 2 bytes_world);
    [lia | unfold max_int; lia | simpl; lia |].
  repeat constructor; unfold is_byte; lia.
Defined.


Lemma save_empty_fails path img w o :
  heap w !! img = Some o ->
  Dx (obj_Bounds o) <= 0 \/ Dy (obj_Bounds o) <= 0 ->
  fails (save path img w) = true.
Proof.
  intros Hl Hd.
  unfold save, os_Create, png_Encode, Bounds, load, bind, ret. simpl.
  destruct (refused w path); [reflexivity|]. simpl. rewrite Hl.
  destruct (Z.leb_spec (Dx (obj_Bounds o)) 0); [reflexivity|].
  destruct (Z.leb_spec (Dy (obj_Bounds o)) 0); [reflexivity|]. lia.
Qed.



(** X15. Generating a key of width 0 and saving it panics, whatever the
    path: [KeyGen] returns an empty image and [save] cannot encode it. *)
Theorem keygen_zero_then_save_panics (path : string) (rgb : bool) (w : World) :
  fails ((k <- part_000.KeyGen (Some path) (Some 0) rgb ;; save path k) w) = true.
Proof.
  destruct (KeyGen_At 0 rgb w) as (w1 & ok & H1 & H2 & H3 & _).
  { unfold max_int. lia. }
  { apply reads_pass_enough. simpl. rewrite Nat.mul_0_r. lia. }
  change (part_000.KeyGen (Some path) (Some 0) rgb) with (KeyGen 0 rgb).
  rewrite (bind_Ok _ _ _ _ _ H1).
  apply (save_empty_fails path _ w1 ok).
  - rewrite H2. now apply list_lookup_middle.
  - rewrite H3. left. vm_compute. discriminate.
Qed.

(** ** The further properties on concrete images *)

Lemma rgb_roundtrip_exact_witness :
  exists c w1 d w2 od,
    Encrypt nearest 1 0 true example_world = Ok (c, w1) /\
    Decrypt nearest c 0 true w1 = Ok (d, w2) /\
    heap w2 !! d = Some od /\
    obj_Bounds od = image_Rect 0 0 2 2 /\
    forall x y, obj_At od x y = obj_At example_source x y.
Proof.
  apply (rgb_roundtrip_exact nearest 1 0 example_world (image_Rect 0 0 2 2)
           (fun x y =>
              let '(r, g, b) :=
                nth (Z.to_nat (y * 2 + x))
                  [(5, 6, 7); (8, 9, 10); (11, 12, 13); (14, 15, 16)] (0, 0, 0) in
              mkRGBA r g b 255) example_key);
    [reflexivity | reflexivity | reflexivity | allocatable_concrete | ].
  intros x y Hin.
  change (Point_In x y (mkRectangle (mkPoint 0 0) (mkPoint 2 2)) = true) in Hin.
  unfold Point_In in Hin. cbn [X Y Min Max] in Hin. zhyp.
  assert (Hx : x = 0 \/ x = 1) by lia. assert (Hy : y = 0 \/ y = 1) by lia.
  destruct Hx as [-> | ->], Hy as [-> | ->]; vm_compute; easy.
Defined.

Lemma two_time_pad_witness :
  let r1 := resized nearest (Dx (obj_Bounds example_key))
              (Dy (obj_Bounds example_key)) example_source in
  let r2 := resized nearest (Dx (obj_Bounds example_key))
              (Dy (obj_Bounds example_key)) second_source in
  exists c1 w1 c2 w2 x w3 ox,
    Encrypt nearest 1 0 true three_world = Ok (c1, w1) /\
    Encrypt nearest 2 0 true w1 = Ok (c2, w2) /\
    Encrypt nearest c1 c2 true w2 = Ok (x, w3) /\
    heap w3 !! x = Some ox /\
    forall x y, Point_In x y (obj_Bounds example_key) = true ->
      obj_At ox x y = ColorRGBA (xor_pixel (obj_At r1 x y) (obj_At r2 x y)).
Proof.
  apply (two_time_pad nearest 1 2 0 three_world example_source second_source
           example_key);
    [reflexivity | reflexivity | reflexivity | allocatable_concrete].
Defined.

Lemma rgb_transform_symmetric_witness :
  exists c1 w1 o1 c2 w2 o2,
    Encrypt nearest 1 0 true example_world = Ok (c1, w1) /\
    Encrypt nearest 0 1 true example_world = Ok (c2, w2) /\
    heap w1 !! c1 = Some o1 /\ heap w2 !! c2 = Some o2 /\
    obj_Bounds o1 = obj_Bounds o2 /\
    forall x y, obj_At o1 x y = obj_At o2 x y.
Proof.
  apply (rgb_transform_symmetric nearest 1 0 example_world example_source
           example_key);
    [reflexivity | reflexivity | reflexivity | allocatable_concrete].
Defined.

Lemma transform_with_itself_witness :
  exists c w1 oc,
    Encrypt nearest 1 1 false example_world = Ok (c, w1) /\
    heap w1 !! c = Some oc /\
    forall x y, Point_In x y (obj_Bounds example_source) = true ->
      obj_At oc x y = ColorRGBA (mkRGBA 255 255 255 255).
Proof.
  apply (transform_with_itself nearest 1 false example_world example_source);
    [reflexivity | allocatable_concrete].
Defined.

Lemma output_is_opaque_witness :
  exists out w' oo,
    Encrypt nearest 1 0 true resize_world = Ok (out, w') /\
    heap w' !! out = Some oo /\
    forall x y, Point_In x y (obj_Bounds example_key) = true ->
      exists c, obj_At oo x y = ColorRGBA c /\ A c = 255.
Proof.
  apply (output_is_opaque nearest 1 0 true resize_world one_pixel example_key);
    [reflexivity | reflexivity | allocatable_concrete].
Defined.


Lemma output_is_fresh_witness :
  exists out w',
    Encrypt nearest 1 0 false resize_world = Ok (out, w') /\
    heap resize_world !! out = None /\ out <> 1%nat /\ out <> 0%nat /\
    is_Some (heap w' !! out).
Proof.
  apply (output_is_fresh nearest 1 0 false resize_world one_pixel example_key);
    [reflexivity | reflexivity | allocatable_concrete].
Defined.

Lemma negative_key_panics_witness :
  Encrypt nearest 1 0 true bad_key_world =
    Panic "image: NewRGBA Rectangle has huge or negative dimensions" /\
  Decrypt nearest 1 0 true bad_key_world =
    Panic "image: NewRGBA Rectangle has huge or negative dimensions".
Proof.
  apply (negative_key_panics nearest 1 0 true bad_key_world bad_key);
    [reflexivity | left; vm_compute; reflexivity].
Defined.

Lemma mono_roundtrip_exact_witness :
  exists c w1 d w2 od,
    Encrypt nearest 1 0 false bw_world = Ok (c, w1) /\
    Decrypt nearest c 0 false w1 = Ok (d, w2) /\
    heap w2 !! d = Some od /\
    obj_Bounds od = image_Rect 0 0 2 2 /\
    forall x y, obj_At od x y = obj_At bw_source x y.
Proof.
  apply (mono_roundtrip_exact nearest 1 0 bw_world (image_Rect 0 0 2 2)
           (fun x y =>
              let '(r, g, b) :=
                nth (Z.to_nat (y * 2 + x))
                  [(0, 0, 0); (255, 255, 255); (255, 255, 255); (0, 0, 0)]
                  (0, 0, 0) in
              mkRGBA r g b 255) example_key);
    [reflexivity | reflexivity | reflexivity | allocatable_concrete | ].
  intros x y Hin.
  change (Point_In x y (mkRectangle (mkPoint 0 0) (mkPoint 2 2)) = true) in Hin.
  unfold Point_In in Hin. cbn [X Y Min Max] in Hin. zhyp.
  assert (Hx : x = 0 \/ x = 1) by lia. assert (Hy : y = 0 \/ y = 1) by lia.
  destruct Hx as [-> | ->], Hy as [-> | ->]; vm_compute; auto.
Defined.

Lemma legacy_Encrypt_same_image_witness :
  exists c1 w1 o1 c2 w2 o2,
    Encrypt nearest 1 0 false resize_world = Ok (c1, w1) /\
    part_001.Encrypt nearest 1 0 false resize_world = Ok (c2, w2) /\
    heap w1 !! c1 = Some o1 /\ heap w2 !! c2 = Some o2 /\
    obj_Bounds o1 = obj_Bounds o2 /\
    forall x y, obj_At o1 x y = obj_At o2 x y.
Proof.
  apply (legacy_Encrypt_same_image nearest 1 0 false resize_world one_pixel
           example_key);
    [reflexivity | reflexivity | allocatable_concrete].
Defined.

Section MonochromeLoss.

Variable Lanczos3 : InterpolationFunction.

(** X16. Monochrome mode sees a source only through its tags: two sources
    whose resized pixels have the same tag at every coordinate of the key's
    bounds give outputs that answer the same color everywhere. *)
Theorem mono_depends_only_on_tags (S1 S2 K : nat) (w : World)
    (o1 o2 ko : ImgObj) :
  heap w !! S1 = Some o1 -> heap w !! S2 = Some o2 -> heap w !! K = Some ko ->
  allocatable (obj_Bounds ko) ->
  (forall x y, Point_In x y (obj_Bounds ko) = true ->
     tag (obj_At (resized Lanczos3 (Dx (obj_Bounds ko)) (Dy (obj_Bounds ko)) o1) x y) =
     tag (obj_At (resized Lanczos3 (Dx (obj_Bounds ko)) (Dy (obj_Bounds ko)) o2) x y)) ->
  exists c1 w1 oc1 c2 w2 oc2,
    Encrypt Lanczos3 S1 K false w = Ok (c1, w1) /\
    Encrypt Lanczos3 S2 K false w = Ok (c2, w2) /\
    heap w1 !! c1 = Some oc1 /\ heap w2 !! c2 = Some oc2 /\
    forall x y, obj_At oc1 x y = obj_At oc2 x y.
Proof.
  intros H1 H2 HK Hal Htag.
  destruct (Encrypt_spec Lanczos3 S1 K false w _ _ H1 HK Hal)
    as (w1 & pix1 & Hrun1 & _ & Hc1 & Hpix1).
  destruct (Encrypt_spec Lanczos3 S2 K false w _ _ H2 HK Hal)
    as (w2 & pix2 & Hrun2 & _ & Hc2 & Hpix2).
  eexists _, w1, _, _, w2, _.
  split; [exact Hrun1|]. split; [exact Hrun2|].
  split; [exact Hc1|]. split; [exact Hc2|].
  intros x y. simpl obj_At.
  destruct (Point_In x y (obj_Bounds ko)) eqn:Hin; [|reflexivity].
  rewrite Hpix1, Hpix2, Hin. unfold transform_pixel.
  now rewrite (Htag x y Hin).
Qed.

End MonochromeLoss.



(** X18. With the crypto/rand of Go 1.22 and 1.23, whose failed reads
    return, once the random source has run dry the key degenerates
    silently: for a size whose buffer fits [int], every pixel whose bytes
    lie past the end of the stream is opaque black, in both modes. *)
Theorem key_pixels_past_the_stream (n : Z) (rgb : bool) (w : World) (x y : Z) :
  rand_aborts w = false -> 4 * n * n <= max_int ->
  0 <= x < n -> 0 <= y < n ->
  (length (entropy w) <= bytes_per_pixel rgb * Z.to_nat (y * n + x))%nat ->
  exists k w' ok,
    KeyGen n rgb w = Ok (k, w') /\
    heap w' !! k = Some ok /\
    obj_At ok x y = ColorNRGBA (mkNRGBA 0 0 0 255).
Proof.
  intros Hab Hsz Hx Hy Hlen.
  destruct (KeyGen_At n rgb w Hsz ltac:(now left))
    as (w' & ok & H1 & H2 & _ & _ & _ & _ & H6).
  exists (length (heap w)), w', ok.
  split; [exact H1|]. split; [rewrite H2; now apply list_lookup_middle|].
  rewrite H6. unfold in_key.
  replace ((0 <=? x) && (x <? n) && (0 <=? y) && (y <? n)) with true
    by (symmetry; zbool).
  assert (Hz : forall i, (length (entropy w) <= i)%nat -> byte_at (entropy w) i = 0).
  { intros i Hi. unfold byte_at. rewrite nth_lookup.
    now rewrite (lookup_ge_None_2 _ _ Hi). }
  unfold key_pixel, bytes_per_pixel in *. destruct rgb.
  - rewrite !Hz by lia. vm_compute. reflexivity.
  - rewrite Hz by lia. vm_compute. reflexivity.
Qed.

Lemma key_pixels_past_the_stream_witness :
  exists k w' ok,
    KeyGen 3 true bytes_world = Ok (k, w') /\
    heap w' !! k = Some ok /\
    obj_At ok 1 1 = ColorNRGBA (mkNRGBA 0 0 0 255).
Proof.
  apply (key_pixels_past_the_stream 3 true bytes_world 1 1);
    [reflexivity | unfold max_int; lia | lia | lia |].
  simpl. lia.
Defined.

(** X19. With the crypto/rand of Go 1.24 and later, whose failed reads
    abort the program, [KeyGen] of a positive size whose buffer fits [int]
    does not return when the random source is exhausted: the first read
    ends the program, in both modes. *)
Theorem KeyGen_aborts_on_exhausted_source (n : Z) (rgb : bool) (w : World) :
  rand_aborts w = true -> entropy w = [] ->
  0 < n -> 4 * n * n <= max_int ->
  fails (KeyGen n rgb w) = true /\
  KeyGen n rgb w =
    Panic "fatal error: crypto/rand: failed to read random data".
Proof.
  intros Hab He Hn Hsz. apply allocatable_square in Hsz.
  set (wa := mkWorld
    (heap w ++ [ObjNRGBA (image_Rect 0 0 n n) (fun _ _ => mkNRGBA 0 0 0 0)])
    (entropy w) (files w) (refused w) (rand_aborts w)).
  assert (Hr : forall b, b <> [] ->
    rand_Read b wa = Panic "fatal error: crypto/rand: failed to read random data").
  { intros b Hb. rewrite (rand_Read_empty b wa He Hb). simpl. now rewrite Hab. }
  assert (H : KeyGen n rgb w =
              Panic "fatal error: crypto/rand: failed to read random data").
  { unfold KeyGen. destruct rgb; unfold keyGenRGB, keyGenBW;
      rewrite (bind_Ok _ _ _ _ _ (image_NewNRGBA_Ok _ w Hsz)); fold wa;
      apply bind_Panic; rewrite forZ_step by lia; apply bind_Panic;
      rewrite forZ_step by lia; apply bind_Panic; apply bind_Panic;
      apply Hr; discriminate. }
  rewrite H. split; reflexivity.
Qed.

Lemma KeyGen_aborts_on_exhausted_source_witness :
  fails (KeyGen 2 false (aborting_world_of [] [])) = true /\
  KeyGen 2 false (aborting_world_of [] []) =
    Panic "fatal error: crypto/rand: failed to read random data".
Proof.
  apply (KeyGen_aborts_on_exhausted_source 2 false (aborting_world_of [] []));
    [reflexivity | reflexivity | lia | unfold max_int; lia].
Defined.

(** X20. [KeyGen] of a size whose buffer of [4 * n * n] bytes does not fit
    [int] panics in [image.NewNRGBA], in both modes, before any random byte
    is read. *)
Theorem KeyGen_huge_size_panics (n : Z) (rgb : bool) (w : World) :
  max_int < 4 * n * n ->
  KeyGen n rgb w =
    Panic "image: NewNRGBA Rectangle has huge or negative dimensions".
Proof.
  intros H. apply not_allocatable_square in H.
  unfold KeyGen. destruct rgb; unfold keyGenRGB, keyGenBW, image_NewNRGBA;
    unfold bind at 1 2; now rewrite (pixelBufferLength_huge _ "NRGBA" w H).
Qed.

Lemma KeyGen_huge_size_panics_witness :
  KeyGen (2 ^ 31) true bytes_world =
    Panic "image: NewNRGBA Rectangle has huge or negative dimensions".
Proof.
  apply (KeyGen_huge_size_panics (2 ^ 31) true bytes_world).
  unfold max_int. lia.
Defined.

Section SourceAndSize.

Variable Lanczos3 : InterpolationFunction.

(** X21. What the key of an exhausted source costs: with the crypto/rand of
    Go 1.22 and 1.23, an RGB key generated from an exhausted source encrypts
    nothing.  For a source with the bounds of that key, the ciphertext has at
    every coordinate the 8-bit red, green and blue of the plaintext. *)
Theorem exhausted_source_key_leaks_plaintext (S : nat) (n : Z) (w : World)
    (so : ImgObj) :
  heap w !! S = Some so ->
  rand_aborts w = false -> entropy w = [] ->
  0 <= n -> 4 * n * n <= max_int ->
  obj_Bounds so = image_Rect 0 0 n n ->
  exists k w1 c w2 oc,
    KeyGen n true w = Ok (k, w1) /\
    Encrypt Lanczos3 S k true w1 = Ok (c, w2) /\
    heap w2 !! c = Some oc /\
    obj_Bounds oc = obj_Bounds so /\
    forall x y, Point_In x y (obj_Bounds so) = true ->
      rgb8 (obj_At oc x y) = rgb8 (obj_At so x y).
Proof.
  intros HS Hab He Hn Hsz Hb.
  destruct (KeyGen_At n true w Hsz ltac:(now left))
    as (w1 & ok & H1 & H2 & H3 & _ & _ & _ & H6).
  assert (HS1 : heap w1 !! S = Some so)
    by (rewrite H2; now apply lookup_app_l_Some).
  assert (HK1 : heap w1 !! length (heap w) = Some ok)
    by (rewrite H2; now apply list_lookup_middle).
  assert (Hal : allocatable (obj_Bounds ok))
    by (rewrite H3; now apply allocatable_square).
  destruct (Encrypt_spec Lanczos3 S _ true w1 so ok HS1 HK1 Hal)
    as (w2 & pix & Hrun & _ & Hc & Hpix).
  eexists _, w1, _, w2, _.
  split; [exact H1|]. split; [exact Hrun|]. split; [exact Hc|].
  split; [simpl; congruence|].
  intros x y Hin.
  destruct (Point_In_dims _ _ _ Hin) as [Hdx Hdy].
  assert (Hk : in_key n n x y = true).
  { rewrite Hb, image_Rect_pos in Hin by lia.
    unfold Point_In in Hin. cbn [X Y Min Max] in Hin. exact Hin. }
  rewrite H3, <- Hb in *.
  simpl obj_At at 1. rewrite Hin, Hpix, Hin. unfold transform_pixel.
  rewrite resized_same by (try assumption; reflexivity).
  rewrite rgb8_xor_pixel, H6, Hk, He.
  unfold key_pixel. rewrite !byte_at_nil.
  change (rgb8 (ColorNRGBA (rgb_key_pixel 0 0 0))) with (0, 0, 0).
  destruct (rgb8 (obj_At so x y)) as [[r g] b].
  now rewrite !Z.lxor_0_r.
Qed.


End SourceAndSize.


Lemma exhausted_source_key_leaks_plaintext_witness :
  exists k w1 c w2 oc,
    KeyGen 2 true exhausted_world = Ok (k, w1) /\
    Encrypt nearest 0 k true w1 = Ok (c, w2) /\
    heap w2 !! c = Some oc /\
    obj_Bounds oc = obj_Bounds example_source /\
    forall x y, Point_In x y (obj_Bounds example_source) = true ->
      rgb8 (obj_At oc x y) = rgb8 (obj_At example_source x y).
Proof.
  apply (exhausted_source_key_leaks_plaintext nearest 0 2 exhausted_world
           example_source);
    [reflexivity | reflexivity | reflexivity | lia | unfold max_int; lia
    | reflexivity].
Defined.

Lemma mono_depends_only_on_tags_witness :
  exists c1 w1 oc1 c2 w2 oc2,
    Encrypt nearest 1 0 false dark_world = Ok (c1, w1) /\
    Encrypt nearest 2 0 false dark_world = Ok (c2, w2) /\
    heap w1 !! c1 = Some oc1 /\ heap w2 !! c2 = Some oc2 /\
    forall x y, obj_At oc1 x y = obj_At oc2 x y.
Proof.
  apply (mono_depends_only_on_tags nearest 1 2 0 dark_world example_source
           dark_source example_key);
    [reflexivity | reflexivity | reflexivity | allocatable_concrete | ].
  intros x y Hin.
  change (Point_In x y (mkRectangle (mkPoint 0 0) (mkPoint 2 2)) = true) in Hin.
  unfold Point_In in Hin. cbn [X Y Min Max] in Hin. zhyp.
  assert (Hx : x = 0 \/ x = 1) by lia. assert (Hy : y = 0 \/ y = 1) by lia.
  destruct Hx as [-> | ->], Hy as [-> | ->]; vm_compute; reflexivity.
Defined.
